(** * docker_simple: the command builder and the reconciler of one container

    A shallow embedding of [library/docker_simple.py].  The module is written
    for CPython 2 ([subprocess.check_output] returns a [str] that is searched
    with ['true' in ...]), so strings are byte strings, files are read without
    newline translation and [str]/[repr] follow CPython 2.7 on a 64-bit host.

    Layout: Python values and the string helpers the module relies on; the
    command builder (three static methods); [strptime] on the format the
    module uses; the host interface (the docker client, the build context
    and the clock are external); the [Container] class as a
    state-and-exception monad; [run_module]; a small executable host used to
    run the model.  Then the theorems: the command builder, the persisted
    record, construction, the reconciler on every host, what a reconciliation
    leaves alone, finalisation, a second run with the same arguments, and
    runs on the executable host.  A last part proves further properties of
    the same code: the command line, the constructed container, what the
    module reports, the other two states, and the image step. *)

From Stdlib Require Import Ascii String ZArith DecimalString.
From stdpp Require Import gmap strings list fin_maps.

Set Warnings "-register-all".

Local Open Scope string_scope.
Local Open Scope Z_scope.

(** ** Python values *)

(** The values an argument of the module can hold: ansible hands over [None],
    a [str], an [int] (or [bool]), a [list] or a [dict] with string keys.  A
    [dict] is kept as an association list in iteration order. *)
Inductive pyval : Type :=
| PNone
| PBool (b : bool)
| PInt (z : Z)
| PStr (s : string)
| PList (l : list pyval)
| PDict (d : list (string * pyval)).

Definition dict : Type := list (string * pyval).

(** [bool(v)]: what [if v:] tests. *)
Definition truthy (v : pyval) : bool :=
  match v with
  | PNone => false
  | PBool b => b
  | PInt z => negb (z =? 0)
  | PStr s => negb (String.eqb s EmptyString)
  | PList l => match l with [] => false | _ => true end
  | PDict d => match d with [] => false | _ => true end
  end.

Module PyString.

Definition newline : string := String "010"%char EmptyString.
Definition dquote : string := String "034"%char EmptyString.

(** [sep.join(l)] *)
Definition join (sep : string) (l : list string) : string := String.concat sep l.

(** [needle in s] for two strings *)
Fixpoint contains (needle s : string) : bool :=
  String.prefix needle s ||
  match s with
  | EmptyString => false
  | String _ s' => contains needle s'
  end.

(** [s.replace(a, b)] for one-character [a] and [b] *)
Fixpoint replace (a b : ascii) (s : string) : string :=
  match s with
  | EmptyString => EmptyString
  | String c s' => String (if Ascii.eqb c a then b else c) (replace a b s')
  end.

Fixpoint take (n : nat) (s : string) : string :=
  match n, s with
  | S n', String c s' => String c (take n' s')
  | _, _ => EmptyString
  end.

(** [s[:k]] for a non-negative [k] *)
Definition slice_to (k : nat) (s : string) : string := take k s.

(** [s[:-k]] for a positive [k]: all but the last [k] characters, the
    empty string when [s] is shorter than [k]. *)
Definition slice_to_neg (k : nat) (s : string) : string :=
  take (String.length s - k)%nat s.

Fixpoint drop (n : nat) (s : string) : string :=
  match n, s with
  | S n', String _ s' => drop n' s'
  | _, _ => s
  end.

(** [s[-k:]] for a positive [k]: the last [k] characters, all of [s] when it
    is shorter. *)
Definition slice_from_neg (k : nat) (s : string) : string :=
  drop (String.length s - k)%nat s.

(** [f.readline()] on the unread part of a file: the line with its
    terminating newline (if any), and what is left to read. *)
Fixpoint readline (s : string) : string * string :=
  match s with
  | EmptyString => (EmptyString, EmptyString)
  | String c s' =>
      if Ascii.eqb c "010"%char then (String c EmptyString, s')
      else let '(line, rest) := readline s' in (String c line, rest)
  end.

(** [if line and line[-1] == '\n': line = line[:-1]] *)
Fixpoint strip_newline (s : string) : string :=
  match s with
  | EmptyString => EmptyString
  | String c EmptyString => if Ascii.eqb c "010"%char then EmptyString else s
  | String c s' => String c (strip_newline s')
  end.

Definition decimal (z : Z) : string := NilZero.string_of_int (Z.to_int z).

Definition hex_digit (n : N) : ascii :=
  ascii_of_N (if (n <? 10)%N then 48 + n else 87 + n)%N.

(** One character of [repr(s)], for the quote character [q] in use. *)
Definition repr_char (q c : ascii) : string :=
  let n := N_of_ascii c in
  if Ascii.eqb c q || Ascii.eqb c "\"%char then String "\"%char (String c EmptyString)
  else if (n =? 9)%N then "\t"
  else if (n =? 10)%N then "\n"
  else if (n =? 13)%N then "\r"
  else if (n <? 32)%N || (127 <=? n)%N
       then "\x" ++ String (hex_digit (n / 16)) (String (hex_digit (n mod 16)) EmptyString)
  else String c EmptyString.

Fixpoint repr_chars (q : ascii) (s : string) : string :=
  match s with
  | EmptyString => EmptyString
  | String c s' => repr_char q c ++ repr_chars q s'
  end.

(** [repr(s)] of a [str]: single quotes, unless the string holds a single
    quote and no double quote. *)
Definition repr_str (s : string) : string :=
  let q := if contains "'" s && negb (contains dquote s) then "034"%char else "'"%char in
  String q (repr_chars q s ++ String q EmptyString).

(** [repr(z)]: a value outside the machine word is a [long] and ends in L. *)
Definition repr_int (z : Z) : string :=
  if (- 2 ^ 63 <=? z) && (z <? 2 ^ 63) then decimal z else decimal z ++ "L".

End PyString.

(** [repr(v)] *)
Fixpoint py_repr (v : pyval) : string :=
  match v with
  | PNone => "None"
  | PBool b => if b then "True" else "False"
  | PInt z => PyString.repr_int z
  | PStr s => PyString.repr_str s
  | PList l => "[" ++ PyString.join ", " (map py_repr l) ++ "]"
  | PDict d =>
      "{" ++ PyString.join ", "
               (map (fun kv => let '(k, x) := kv in
                               PyString.repr_str k ++ ": " ++ py_repr x) d) ++ "}"
  end.

(** [str(v)]: the string itself, the decimal digits of a number, and the
    [repr] of everything else. *)
Definition py_str (v : pyval) : string :=
  match v with
  | PStr s => s
  | PInt z => PyString.decimal z
  | _ => py_repr v
  end.

(** ** Dictionaries *)

Module Dict.

Fixpoint get (k : string) (d : dict) : option pyval :=
  match d with
  | [] => None
  | (k', v) :: d' => if String.eqb k k' then Some v else get k d'
  end.

Definition remove (k : string) (d : dict) : dict :=
  List.filter (fun kv => negb (String.eqb k (fst kv))) d.

(** [d.pop(k)]: the value and the dictionary without the key; [None] is a
    [KeyError]. *)
Definition pop (k : string) (d : dict) : option (pyval * dict) :=
  match get k d with
  | Some v => Some (v, remove k d)
  | None => None
  end.

(** [d.pop(k, default)] *)
Definition pop_default (k : string) (default : pyval) (d : dict) : pyval * dict :=
  match pop k d with
  | Some r => r
  | None => (default, d)
  end.

(** [d[k] = v]: a key that is present keeps its place, a new key goes last. *)
Fixpoint set (k : string) (v : pyval) (d : dict) : dict :=
  match d with
  | [] => [(k, v)]
  | (k', v') :: d' =>
      if String.eqb k k' then (k', v) :: d' else (k', v') :: set k v d'
  end.

Definition keys (d : dict) : list string := map fst d.

End Dict.

(** ** Exceptions *)

Inductive exn : Type :=
| InvalidArgumentException (msg : string)
| TypeError
| KeyError (key : string)
| ValueError
| OSError
| CalledProcessError (cmd : list string) (output : string).

Inductive result (A : Type) : Type :=
| Ok (a : A)
| Raise (e : exn).
Arguments Ok {A} a.
Arguments Raise {A} e.

(** ** The command builder *)

Definition arg_name_of (key : string) : string :=
  "--" ++ PyString.replace "_" "-" key.

(** [Container._construct_docker_command(command, **kwargs)]: the list
    [command] grows by [extend] while the loop runs over [iteritems(kwargs)]. *)
Definition _construct_docker_command (command : string) (kwargs : dict) : list string :=
  fold_left
    (fun command kv =>
       let '(key, value) := kv in
       let arg_name := arg_name_of key in
       match value with
       | PList items =>
           fold_left (fun command list_item => (command ++ [arg_name; py_str list_item])%list)
                     items command
       | _ =>
           if truthy value then (command ++ [arg_name; py_str value])%list else command
       end)
    kwargs ["docker"; command].

(** [Container._construct_docker_build_command(image, **kwargs)].

    [**kwargs] copies the caller's dictionary but not the values in it: when
    [build_args] is a [dict], [build_args['tag'] = image] writes into the very
    object that the caller's [kwargs['build_args']] names.  The second
    component is the caller's dictionary as it reads after the call.

    The build arguments are passed on as keywords,
    [_construct_docker_command('build', **build_args)]: an entry named
    [command] meets the parameter of that name, which already has its value,
    and the call raises [TypeError]. *)
Definition _construct_docker_build_command (image : string) (kwargs : dict)
  : result (list string * dict) :=
  let '(build_args, _) := Dict.pop_default "build_args" (PDict []) kwargs in
  match build_args with
  | PNone =>
      let build_args := Dict.set "tag" (PStr image) [] in
      let build_command := _construct_docker_command "build" build_args in
      Ok (((build_command ++ ["--no-cache"]) ++ ["."])%list, kwargs)
  | PDict d =>
      let build_args := Dict.set "tag" (PStr image) d in
      match Dict.get "command" build_args with
      | Some _ => Raise TypeError
      | None =>
          let build_command := _construct_docker_command "build" build_args in
          Ok (((build_command ++ ["--no-cache"]) ++ ["."])%list,
              match Dict.get "build_args" kwargs with
              | Some _ => Dict.set "build_args" (PDict build_args) kwargs
              | None => kwargs
              end)
      end
  | _ => Raise TypeError
  end.

(** [Container._construct_docker_run_command(image, **kwargs)].  The popped
    [command] is appended as it is, so the result is a list of values; the
    constructor joins it afterwards. *)
Definition _construct_docker_run_command (image : string) (kwargs : dict)
  : result (list pyval) :=
  match Dict.pop "command" kwargs with
  | None => Raise (KeyError "command")
  | Some (command, kwargs) =>
      let run_command := map PStr (_construct_docker_command "run" kwargs) in
      let run_command := (run_command ++ [PStr "-d"])%list in
      let run_command := (run_command ++ [PStr image])%list in
      Ok (if truthy command then (run_command ++ [command])%list else run_command)
  end.

(** [' '.join(tokens)] needs every token to be a string. *)
Fixpoint as_strings (tokens : list pyval) : result (list string) :=
  match tokens with
  | [] => Ok []
  | PStr s :: rest =>
      match as_strings rest with
      | Ok l => Ok (s :: l)
      | Raise e => Raise e
      end
  | _ :: _ => Raise TypeError
  end.

(** ** Dates and times *)

(** [datetime.datetime.strptime(s, "%Y-%m-%dT%H:%M:%S.%f")].  A [datetime]
    without time zone is kept as the number of microseconds from
    1970-01-01T00:00:00 to the date and time it shows; two of them compare as
    these numbers do. *)
Module Datetime.

Definition digit (c : ascii) : option Z :=
  let n := Z.of_N (N_of_ascii c) in
  if (48 <=? n) && (n <=? 57) then Some (n - 48) else None.

(** The digits at the head of [s], and what follows them. *)
Fixpoint digits (s : string) : list Z * string :=
  match s with
  | String c s' =>
      match digit c with
      | Some d => let '(ds, rest) := digits s' in (d :: ds, rest)
      | None => ([], s)
      end
  | EmptyString => ([], s)
  end.

Definition number (ds : list Z) : Z := fold_left (fun n d => 10 * n + d) ds 0.

(** A numeric directive: one to [max_len] digits that spell a number from
    [lo] to [hi].  Every directive of the format but the last is followed by
    a character that is no digit, so it has to take all the digits there
    are. *)
Definition field (max_len : nat) (lo hi : Z) (s : string) : option (Z * string) :=
  let '(ds, rest) := digits s in
  if (1 <=? length ds)%nat && (length ds <=? max_len)%nat
     && (lo <=? number ds) && (number ds <=? hi)
  then Some (number ds, rest)
  else None.

(** [%Y]: four digits. *)
Definition year_field (s : string) : option (Z * string) :=
  let '(ds, rest) := digits s in
  if (length ds =? 4)%nat then Some (number ds, rest) else None.

(** [%d]: 1 to 31, and also a space before one digit. *)
Definition day_field (s : string) : option (Z * string) :=
  match s with
  | String " " s' => field 1 1 9 s'
  | _ => field 2 1 31 s
  end.

Definition literal (c : ascii) (s : string) : option string :=
  match s with
  | String c' s' => if Ascii.eqb c' c then Some s' else None
  | EmptyString => None
  end.

(** [%f]: one to six digits, padded with zeros on the right; it is the last
    directive, and nothing may follow it. *)
Definition fraction_field (s : string) : option Z :=
  let '(ds, rest) := digits s in
  if (1 <=? length ds)%nat && (length ds <=? 6)%nat && String.eqb rest EmptyString
  then Some (number (ds ++ replicate (6 - length ds) 0))
  else None.

Definition is_leap (y : Z) : bool :=
  (y mod 4 =? 0) && (negb (y mod 100 =? 0) || (y mod 400 =? 0)).

Definition days_in_month (y m : Z) : Z :=
  if m =? 2 then (if is_leap y then 29 else 28)
  else if (m =? 4) || (m =? 6) || (m =? 9) || (m =? 11) then 30
  else 31.

(** The days from 1970-01-01 to a date of the Gregorian calendar. *)
Definition days_from_epoch (y m d : Z) : Z :=
  let y' := if m <=? 2 then y - 1 else y in
  let era := y' / 400 in
  let yoe := y' - era * 400 in
  let doy := (153 * (if 2 <? m then m - 3 else m + 9) + 2) / 5 + d - 1 in
  let doe := yoe * 365 + yoe / 4 - yoe / 100 + doy in
  era * 146097 + doe - 719468.

(** [None] is a [ValueError]: the string does not match the format, text
    remains after the match, or the fields are no date and time (a day the
    month does not have, the year 0, a leap second).  The match ignores
    case. *)
Definition strptime (s : string) : option Z :=
  '(year, s) ← year_field s;
  s ← literal "-" s;
  '(month, s) ← field 2 1 12 s;
  s ← literal "-" s;
  '(day, s) ← day_field s;
  s ← match literal "T" s with Some s' => Some s' | None => literal "t" s end;
  '(hour, s) ← field 2 0 23 s;
  s ← literal ":" s;
  '(minute, s) ← field 2 0 59 s;
  s ← literal ":" s;
  '(second, s) ← field 2 0 61 s;
  s ← literal "." s;
  microsecond ← fraction_field s;
  if (1 <=? year) && (day <=? days_in_month year month) && (second <=? 59)
  then Some ((((days_from_epoch year month day * 24 + hour) * 60 + minute) * 60 + second)
             * 1000000 + microsecond)
  else None.

End Datetime.

(** ** The host *)

(** What [subprocess.check_output] does: it returns the captured output on
    exit status 0, raises a [CalledProcessError] carrying the output on
    another exit status, and raises [OSError] when the program cannot be
    started (no [docker] to execute, or a working directory that is not
    there). *)
Inductive completed : Type :=
| Exit0 (output : string)
| NonZero (output : string)
| CannotStart.

(** The collaborators the module drives but does not implement: the docker
    client, the directory tree of the build context, and the clock.  An
    instant is counted in microseconds since the epoch.
    - [exec_command argv cwd]: [check_output(argv, cwd=cwd)];
    - [os_walk top]: the triples [(root, subdirs, files)] that [os.walk(top)]
      yields;
    - [getmtime p]: [os.path.getmtime(p)], the instant the file was last
      modified (a [float] in Python, whole microseconds here), [None] when
      it raises [OSError];
    - [fromtimestamp t]: [datetime.datetime.fromtimestamp(t)], the date and
      time that the instant [t] has in the time zone of the host, as a
      [datetime] without time zone. *)
Class Host (H : Type) : Type := {
  exec_command : list string -> option string -> H -> completed * H;
  os_walk : string -> H -> list (string * list string * list string);
  getmtime : string -> H -> option Z;
  fromtimestamp : Z -> H -> Z
}.

Definition DOCKER_COMMANDS_PATH : string := "/var/local/ansible/docker_simple".

(** [os.path.join(a, p)] on a POSIX host *)
Definition os_path_join (a p : string) : string :=
  if String.prefix "/" p then p
  else if String.eqb a EmptyString || String.eqb (PyString.slice_from_neg 1 a) "/"
       then a ++ p
       else a ++ "/" ++ p.

(** One call of [exec_command]: the argument vector and the working
    directory. *)
Definition call : Type := list string * option string.

(** ** The Container class *)

Record Container : Type := {
  changed : bool;
  change_reason : list string;
  name : string;
  image : string;
  path : option string;
  is_local_image : bool;
  prev_commands_file : string;
  prev_build_command : string;
  prev_run_command : string;
  build_command : list string;
  run_command : list string;
  build_command_str : string;
  run_command_str : string
}.

Definition set_changed (b : bool) (c : Container) : Container :=
  {| changed := b;
     change_reason := change_reason c;
     name := name c; image := image c; path := path c;
     is_local_image := is_local_image c;
     prev_commands_file := prev_commands_file c;
     prev_build_command := prev_build_command c;
     prev_run_command := prev_run_command c;
     build_command := build_command c; run_command := run_command c;
     build_command_str := build_command_str c;
     run_command_str := run_command_str c |}.

Definition add_reason (r : string) (c : Container) : Container :=
  {| changed := changed c;
     change_reason := (change_reason c ++ [r])%list;
     name := name c; image := image c; path := path c;
     is_local_image := is_local_image c;
     prev_commands_file := prev_commands_file c;
     prev_build_command := prev_build_command c;
     prev_run_command := prev_run_command c;
     build_command := build_command c; run_command := run_command c;
     build_command_str := build_command_str c;
     run_command_str := run_command_str c |}.

Section Reconciler.

Context {H : Type} `{Host H}.

(** The machine the module runs on: the host, the files under
    [DOCKER_COMMANDS_PATH] (path to content), and the calls made to
    [exec_command] so far, oldest first.  The module is taken to run where
    it can keep its records: the directory can be created and a file in it
    opened, so the failures of [mkpath] and [open], which [run_module]
    reports with [fail_json], do not occur here. *)
Record Sys : Type := {
  host : H;
  files : gmap string string;
  calls : list call
}.

(** A method at work: [self] and the machine. *)
Record State : Type := {
  self : Container;
  sys : Sys
}.

(** A computation over a state [S] that returns or raises; a raised
    exception leaves the state as it was when it was raised. *)
Definition M (S A : Type) : Type := S -> result A * S.

#[global] Instance M_ret {S} : MRet (M S) := fun A a s => (Ok a, s).
#[global] Instance M_bind {S} : MBind (M S) :=
  fun A B f m s =>
    match m s with
    | (Ok a, s') => f a s'
    | (Raise e, s') => (Raise e, s')
    end.

Definition raise {S A} (e : exn) : M S A := fun s => (Raise e, s).

(** [try: body / except CalledProcessError: handler] *)
Definition try_except {S A} (body handler : M S A) : M S A :=
  fun s =>
    match body s with
    | (Raise (CalledProcessError _ _), s') => handler s'
    | r => r
    end.

Definition get_self : M State Container := fun st => (Ok (self st), st).

Definition modify_self (f : Container -> Container) : M State unit :=
  fun st => (Ok tt, {| self := f (self st); sys := sys st |}).

Definition get_host : M State H := fun st => (Ok (host (sys st)), st).

(** [exec_command(argv, cwd=cwd)] *)
Definition exec (argv : list string) (cwd : option string) : M State string :=
  fun st =>
    let '(r, h) := exec_command argv cwd (host (sys st)) in
    let st' := {| self := self st;
                  sys := {| host := h; files := files (sys st);
                            calls := (calls (sys st) ++ [(argv, cwd)])%list |} |} in
    match r with
    | Exit0 output => (Ok output, st')
    | NonZero output => (Raise (CalledProcessError argv output), st')
    | CannotStart => (Raise OSError, st')
    end.

(** *** Queries *)

Definition running_query (name : string) : list string :=
  ["docker"; "inspect"; "--format";
   PyString.dquote ++ "{{.State.Running}}" ++ PyString.dquote; name].

Definition created_query (image : string) : list string :=
  ["docker"; "inspect"; "--format"; "{{.Created}}"; image].

Definition id_query (image : string) : list string :=
  ["docker"; "inspect"; "--format"; "{{.ID}}"; image].

(** [Container.running]: [Some true], [Some false] or [None]. *)
Definition running : M State (option bool) :=
  try_except
    (c ← get_self;
     output ← exec (running_query (name c)) None;
     mret (Some (PyString.contains "true" output)))
    (mret None).

(** [Container.needs_pull] *)
Definition needs_pull : M State bool :=
  try_except
    (c ← get_self;
     output ← exec (id_query (image c)) None;
     mret (negb (truthy (PStr output))))
    (modify_self (add_reason "Image not found, needs pull");;
     mret true).

(** The inner loop of [needs_rebuild]: [for filename in files]. *)
Fixpoint newer_in_files (image_creation_time : Z) (root : string)
         (filenames : list string) : M State bool :=
  match filenames with
  | [] => mret false
  | filename :: rest =>
      h ← get_host;
      match getmtime (os_path_join root filename) h with
      | None => raise OSError
      | Some mtime =>
          let file_mtime := fromtimestamp mtime h in
          if image_creation_time <? file_mtime
          then modify_self (add_reason ("File changed: " ++ filename));;
               mret true
          else newer_in_files image_creation_time root rest
      end
  end.

(** The outer loop: [for root, subdirs, files in os.walk(self.path)]. *)
Fixpoint newer_in_walk (image_creation_time : Z)
         (walk : list (string * list string * list string)) : M State bool :=
  match walk with
  | [] => mret false
  | (root, _, filenames) :: rest =>
      found ← newer_in_files image_creation_time root filenames;
      if (found : bool) then mret true
      else newer_in_walk image_creation_time rest
  end.

(** [Container.needs_rebuild] *)
Definition needs_rebuild : M State bool :=
  c ← get_self;
  if negb (String.eqb (build_command_str c) (prev_build_command c))
  then modify_self (add_reason "Arguments changed for build command");;
       mret true
  else
    time_str ← try_except
                 (output ← exec (created_query (image c)) None;
                  mret (Some output))
                 (modify_self (add_reason "Image not found, needs rebuild");;
                  mret None);
    match time_str with
    | None => mret true
    | Some time_str =>
        match Datetime.strptime (PyString.slice_to 26 time_str) with
        | None => raise ValueError
        | Some image_creation_time =>
            match path c with
            | None => raise TypeError
            | Some top =>
                h ← get_host;
                newer_in_walk image_creation_time (os_walk top h)
            end
        end
    end.

(** *** Primitive actions *)

Definition run : M State unit :=
  c ← get_self;
  exec (run_command c) None;;
  modify_self (add_reason "Executed 'docker run'");;
  modify_self (set_changed true).

Definition start : M State unit :=
  c ← get_self;
  modify_self (add_reason "Executed 'docker start'");;
  exec ["docker"; "start"; name c] None;;
  modify_self (set_changed true).

Definition stop : M State unit :=
  c ← get_self;
  modify_self (add_reason "Executed 'docker stop'");;
  exec ["docker"; "stop"; name c] None;;
  modify_self (set_changed true).

Definition remove : M State unit :=
  c ← get_self;
  modify_self (add_reason "Executed 'docker rm'");;
  exec ["docker"; "rm"; name c] None;;
  modify_self (set_changed true).

Definition restart : M State unit :=
  c ← get_self;
  if changed c
  then stop;; remove;; run
  else modify_self (add_reason "Executed 'docker restart'");;
       exec ["docker"; "restart"; name c] None;;
       modify_self (set_changed true).

Definition build : M State unit :=
  c ← get_self;
  exec (build_command c) (path c);;
  modify_self (add_reason "Executed 'docker build'");;
  modify_self (set_changed true).

Definition pull : M State unit :=
  c ← get_self;
  exec ["docker"; "pull"; image c] None;;
  modify_self (add_reason "Executed 'docker pull'");;
  modify_self (set_changed true).

(** *** The three entry points *)

(** [Container.ensure_image_is_updated] *)
Definition ensure_image_is_updated : M State unit :=
  c ← get_self;
  if is_local_image c
  then (stale ← needs_rebuild; if (stale : bool) then build else mret tt)
  else (missing ← needs_pull; if (missing : bool) then pull else mret tt).

(** [self.run_command_str != self.prev_run_command] *)
Definition run_command_drifted (c : Container) : bool :=
  negb (String.eqb (run_command_str c) (prev_run_command c)).

(** [Container.ensure_running] *)
Definition ensure_running : M State unit :=
  ensure_image_is_updated;;
  c ← get_self;
  (if run_command_drifted c
   then modify_self (add_reason "Arguments changed for run command")
   else mret tt);;
  runs ← running;
  match runs with
  | Some true =>
      c ← get_self;
      if changed c || run_command_drifted c
      then stop;; remove;; run
      else mret tt
  | None => run
  | Some false =>
      c ← get_self;
      if changed c || run_command_drifted c
      then remove;; run
      else start
  end.

(** [Container.ensure_stopped] *)
Definition ensure_stopped : M State unit :=
  runs ← running;
  match runs with
  | Some true => stop
  | _ => mret tt
  end.

(** [Container.ensure_restarted] *)
Definition ensure_restarted : M State unit :=
  runs ← running;
  match runs with
  | Some true => restart
  | None => run
  | Some false =>
      c ← get_self;
      if changed c
      then remove;; run
      else start
  end.

(** *** Construction and finalisation *)

Definition lift {S A} (r : result A) : M S A := fun s => (r, s).

(** The branch of [__init__] on [self.path].  [image] and [path] are
    declared [type='str'] in the argument spec, so each is a string or
    [None]; the subscript and the [in] test raise [TypeError] on [None]. *)
Definition local_or_remote (image path : pyval) : result (string * bool) :=
  if truthy path
  then match image with
       | PStr image =>
           if PyString.contains ":" image
           then Raise (InvalidArgumentException
                         "No tags are allowed when building a local image")
           else Ok (image ++ ":local", true)
       | _ => Raise TypeError
       end
  else match image with
       | PStr image =>
           if String.eqb (PyString.slice_to_neg 6 image) ":local"
           then Raise (InvalidArgumentException
                         "The 'local' tag is reserved for locally built images")
           else Ok (image, false)
       | _ => Raise TypeError
       end.

(** [open(p, 'r+')], and [open(p, 'w+')] when the file is not there: the
    content of the file, which is created empty if need be. *)
Definition open_commands_file (p : string) : M Sys string :=
  fun s =>
    match files s !! p with
    | Some content => (Ok content, s)
    | None =>
        (Ok EmptyString,
         {| host := host s; files := <[p := EmptyString]> (files s);
            calls := calls s |})
    end.

(** [Container.__init__(self, **kwargs)] *)
Definition Container_init (kwargs : dict) : M Sys Container :=
  name ← lift (match Dict.get "name" kwargs with
               | Some v => Ok v
               | None => Raise (KeyError "name")
               end);
  let '(image, kwargs) := Dict.pop_default "image" PNone kwargs in
  let '(path, kwargs) := Dict.pop_default "path" PNone kwargs in
  '(image', is_local) ← lift (local_or_remote image path);
  name ← lift (match name with PStr n => Ok n | _ => Raise TypeError end);
  let file_name := DOCKER_COMMANDS_PATH ++ "/" ++ name in
  content ← open_commands_file file_name;
  let '(line1, unread) := PyString.readline content in
  let '(line2, _) := PyString.readline unread in
  '(build_tokens, kwargs) ← lift (_construct_docker_build_command image' kwargs);
  run_tokens ← lift (_construct_docker_run_command image' kwargs);
  run_tokens ← lift (as_strings run_tokens);
  mret {| changed := false;
          change_reason := [];
          name := name;
          image := image';
          path := match path with PStr p => Some p | _ => None end;
          is_local_image := is_local;
          prev_commands_file := file_name;
          prev_build_command := PyString.strip_newline line1;
          prev_run_command := PyString.strip_newline line2;
          build_command := build_tokens;
          run_command := run_tokens;
          build_command_str := PyString.join " " build_tokens;
          run_command_str := PyString.join " " run_tokens |}.

(** [bool(l)] for a list *)
Definition nonempty {A} (l : list A) : bool :=
  match l with [] => false | _ => true end.

(** [Container.__del__]: [seek(0)], [write], [truncate] leave the file
    holding exactly what was written. *)
Definition Container_del : M State unit :=
  fun st =>
    let c := self st in
    if nonempty (run_command c) && nonempty (build_command c)
    then (Ok tt,
          {| self := c;
             sys := {| host := host (sys st);
                       files := <[prev_commands_file c :=
                                    build_command_str c ++ PyString.newline
                                      ++ run_command_str c]> (files (sys st));
                       calls := calls (sys st) |} |})
    else (Ok tt, st).

(** *** run_module *)

(** How the module ends: [exit_json], [fail_json] (always with
    [changed=True]), or an exception that no handler of [run_module] names. *)
Inductive outcome : Type :=
| ExitJson (changed : bool) (change_reason : list string)
| FailJson (msg : string)
| Uncaught (e : exn).

Definition pyval_is_str (v : pyval) (s : string) : bool :=
  match v with PStr s' => String.eqb s' s | _ => false end.

(** The [if]/[elif] chain on [state]. *)
Definition dispatch (state : pyval) : M State unit :=
  if pyval_is_str state "running" then ensure_running
  else if pyval_is_str state "restarted" then ensure_restarted
  else if pyval_is_str state "stopped" then ensure_stopped
  else mret tt.

(** [run_module], from [module.params] on.  The container is finalised
    (its [__del__] runs) once the reconciliation has returned or raised. *)
Definition run_module (params : dict) (s : Sys) : outcome * Sys :=
  match Dict.pop "state" params with
  | None => (Uncaught (KeyError "state"), s)
  | Some (state, params) =>
      if negb (pyval_is_str state "stopped")
         && negb (bool_decide (is_Some (Dict.get "image" params)))
      then (FailJson "Invalid argument: No image name provided", s)
      else
        match Container_init params s with
        | (Raise (InvalidArgumentException msg), s') =>
            (FailJson ("Invalid argument: " ++ msg), s')
        | (Raise e, s') => (Uncaught e, s')
        | (Ok container, s') =>
            let '(r, st) := dispatch state {| self := container; sys := s' |} in
            let '(_, st) := Container_del st in
            (match r with
             | Ok _ => ExitJson (changed (self st)) (change_reason (self st))
             | Raise (CalledProcessError cmd output) =>
                 FailJson ("Docker command failed: " ++ PyString.join " " cmd
                             ++ PyString.newline ++ PyString.newline ++ output)
             | Raise e => Uncaught e
             end,
             sys st)
        end
  end.

End Reconciler.

Arguments Sys H : clear implicits.
Arguments State H : clear implicits.

(** ** An executable host

    A small docker daemon and file tree on which the model can be run: it
    keeps, per container name, whether the container is running, per image
    reference the creation time as [docker inspect] prints it, the files of
    the build contexts with the instants they were modified, the offset of
    its time zone from UTC, and whether there is a docker client to start.
    It stands in for the real collaborators in the examples; the theorems on
    the reconciler hold for every host. *)
Module Toy.

Record daemon : Type := {
  containers : gmap string bool;
  images : gmap string string;
  walks : gmap string (list (string * list string * list string));
  mtimes : gmap string Z;
  now : string;
  utc_offset : Z;
  client : bool
}.

Definition with_containers (cs : gmap string bool) (d : daemon) : daemon :=
  {| containers := cs; images := images d; walks := walks d;
     mtimes := mtimes d; now := now d; utc_offset := utc_offset d;
     client := client d |}.

Definition with_images (im : gmap string string) (d : daemon) : daemon :=
  {| containers := containers d; images := im; walks := walks d;
     mtimes := mtimes d; now := now d; utc_offset := utc_offset d;
     client := client d |}.

Definition with_mtimes (mt : gmap string Z) (d : daemon) : daemon :=
  {| containers := containers d; images := images d; walks := walks d;
     mtimes := mt; now := now d; utc_offset := utc_offset d;
     client := client d |}.

Definition with_utc_offset (offset : Z) (d : daemon) : daemon :=
  {| containers := containers d; images := images d; walks := walks d;
     mtimes := mtimes d; now := now d; utc_offset := offset;
     client := client d |}.

Definition without_client (d : daemon) : daemon :=
  {| containers := containers d; images := images d; walks := walks d;
     mtimes := mtimes d; now := now d; utc_offset := utc_offset d;
     client := false |}.

(** The argument that follows [flag] on a command line. *)
Fixpoint value_of (flag : string) (args : list string) : option string :=
  match args with
  | f :: rest =>
      if String.eqb f flag
      then match rest with v :: _ => Some v | [] => None end
      else value_of flag rest
  | [] => None
  end.

Definition inspect (format x : string) (d : daemon) : completed :=
  if String.eqb format "{{.Created}}"
  then match images d !! x with
       | Some created => Exit0 (created ++ PyString.newline)
       | None => NonZero EmptyString
       end
  else if String.eqb format "{{.ID}}"
  then match images d !! x with
       | Some _ => Exit0 ("sha256:" ++ x ++ PyString.newline)
       | None => NonZero EmptyString
       end
  else if String.eqb format (PyString.dquote ++ "{{.State.Running}}" ++ PyString.dquote)
  then match containers d !! x with
       | Some b =>
           Exit0 (PyString.dquote ++ (if (b : bool) then "true" else "false")
                    ++ PyString.dquote ++ PyString.newline)
       | None => NonZero EmptyString
       end
  else NonZero EmptyString.

(** The docker client, once it has been started. *)
Definition docker_client (argv : list string) (d : daemon) : completed * daemon :=
  match argv with
  | ["docker"; "inspect"; "--format"; format; x] => (inspect format x d, d)
  | ["docker"; "start"; n] | ["docker"; "restart"; n] =>
      match containers d !! n with
      | Some _ => (Exit0 (n ++ PyString.newline),
                   with_containers (<[n := true]> (containers d)) d)
      | None => (NonZero EmptyString, d)
      end
  | ["docker"; "stop"; n] =>
      match containers d !! n with
      | Some _ => (Exit0 (n ++ PyString.newline),
                   with_containers (<[n := false]> (containers d)) d)
      | None => (NonZero EmptyString, d)
      end
  | ["docker"; "rm"; n] =>
      match containers d !! n with
      | Some false => (Exit0 (n ++ PyString.newline),
                       with_containers (delete n (containers d)) d)
      | _ => (NonZero EmptyString, d)
      end
  | ["docker"; "pull"; x] =>
      (Exit0 EmptyString,
       match images d !! x with
       | Some _ => d
       | None => with_images (<[x := now d]> (images d)) d
       end)
  | "docker" :: "build" :: args =>
      match value_of "--tag" args with
      | Some tag => (Exit0 EmptyString, with_images (<[tag := now d]> (images d)) d)
      | None => (NonZero EmptyString, d)
      end
  | "docker" :: "run" :: args =>
      match value_of "--name" args with
      | Some n =>
          match containers d !! n with
          | None => (Exit0 (n ++ PyString.newline),
                     with_containers (<[n := true]> (containers d)) d)
          | Some _ => (NonZero "Conflict", d)
          end
      | None => (NonZero EmptyString, d)
      end
  | _ => (NonZero EmptyString, d)
  end.

(** [check_output] on this host: the client has to be there, and the
    working directory, if one is given, has to be a directory. *)
Definition docker (argv : list string) (cwd : option string) (d : daemon)
  : completed * daemon :=
  if client d
     && match cwd with
        | Some dir => bool_decide (is_Some (walks d !! dir))
        | None => true
        end
  then docker_client argv d
  else (CannotStart, d).

#[global] Instance toy_host : Host daemon := {|
  exec_command := docker;
  os_walk := fun top d => default [] (walks d !! top);
  getmtime := fun p d => mtimes d !! p;
  fromtimestamp := fun t d => t + utc_offset d
|}.

Definition boot (d : daemon) : Sys daemon :=
  {| host := d; files := ∅; calls := [] |}.

(** A host on UTC with the image [nginx] in its store, no container, and
    the build context [/srv/app], its files last modified at 09:00, 09:30
    and 09:45 on 2018-03-01 (UTC). *)
Definition fresh : daemon :=
  {| containers := ∅;
     images := {[ "nginx" := "2018-03-01T10:00:00.417403692Z" ]};
     walks := {[ "/srv/app" := [("/srv/app", ["conf"], ["Dockerfile"; "run.sh"]);
                                ("/srv/app/conf", [], ["app.ini"])] ]};
     mtimes := {[ "/srv/app/Dockerfile" := 1519894800000000;
                  "/srv/app/run.sh" := 1519896600000000;
                  "/srv/app/conf/app.ini" := 1519897500000000 ]};
     now := "2018-03-01T12:00:00.268175034Z";
     utc_offset := 0;
     client := true |}.

End Toy.

(** * Theorems *)

(** ** The command builder *)

(** What one pass of the loop of [_construct_docker_command] appends to the
    command. *)
Definition option_flags (kv : string * pyval) : list string :=
  let flag := "--" ++ PyString.replace "_" "-" (fst kv) in
  match snd kv with
  | PList items => flat_map (fun item => [flag; py_str item]) items
  | value => if truthy value then [flag; py_str value] else []
  end.

Lemma extend_per_item (arg_name : string) (items : list pyval) (command : list string) :
  fold_left (fun command list_item => (command ++ [arg_name; py_str list_item])%list)
            items command
  = (command ++ flat_map (fun item => [arg_name; py_str item]) items)%list.
Proof.
  revert command.
  induction items as [|item items IH]; intros command; simpl.
  - by rewrite app_nil_r.
  - rewrite IH. by rewrite <- app_assoc.
Qed.

Lemma construct_docker_command_from (kwargs : dict) (acc : list string) :
  fold_left
    (fun command kv =>
       let '(key, value) := kv in
       let arg_name := arg_name_of key in
       match value with
       | PList items =>
           fold_left (fun command list_item => (command ++ [arg_name; py_str list_item])%list)
                     items command
       | _ =>
           if truthy value then (command ++ [arg_name; py_str value])%list else command
       end)
    kwargs acc
  = (acc ++ flat_map option_flags kwargs)%list.
Proof.
  revert acc.
  induction kwargs as [|[key value] kwargs IH]; intros acc; simpl.
  - by rewrite app_nil_r.
  - rewrite IH, app_assoc. f_equal.
    unfold option_flags, arg_name_of; simpl.
    destruct value as [|b|z|s|items|d]; simpl.
    all: try apply extend_per_item.
    all: repeat match goal with
           | |- context [if ?b then _ else _] => destruct b
           end.
    all: by rewrite ?app_nil_r.
Qed.

(** The serialization rule in the words of the specification.  The name of
    a flag is two hyphens and the key, each underscore of which has become a
    hyphen. *)
Definition spec_flag_name (key : string) : string :=
  "--" ++ string_of_list_ascii
            (map (fun c => if ascii_dec c "_" then "-"%char else c)
                 (list_ascii_of_string key)).

(** The falsy values: null, false, zero, and the empty string, list and
    mapping. *)
Definition spec_falsy (value : pyval) : bool :=
  match value with
  | PNone | PBool false | PInt 0 | PStr EmptyString | PList [] | PDict [] => true
  | _ => false
  end.

(** What one [(key, value)] pair contributes: the flag with the string form
    of each element of a list, the flag once with the string form of another
    value that is not falsy, nothing for a falsy value. *)
Definition spec_option_flags (kv : string * pyval) : list string :=
  let '(key, value) := kv in
  match value with
  | PList items => flat_map (fun item => [spec_flag_name key; py_str item]) items
  | _ => if spec_falsy value then [] else [spec_flag_name key; py_str value]
  end.

Lemma replace_hyphenates (key : string) :
  "--" ++ PyString.replace "_" "-" key = spec_flag_name key.
Proof.
  unfold spec_flag_name. f_equal.
  induction key as [|c key IH]; simpl; [done|].
  rewrite IH. f_equal.
  destruct (Ascii.eqb_spec c "_"%char) as [->|Hc]; by destruct (ascii_dec _ "_").
Qed.

Lemma truthy_not_falsy (value : pyval) : truthy value = negb (spec_falsy value).
Proof.
  destruct value as [|[|]|z|s|items|d]; simpl; try done.
  all: match goal with
       | |- context [match ?x with _ => _ end] => by destruct x
       end.
Qed.

Lemma option_flags_spec (kv : string * pyval) : option_flags kv = spec_option_flags kv.
Proof.
  destruct kv as [key value]. unfold option_flags, spec_option_flags.
  cbv beta iota delta [fst snd].
  rewrite replace_hyphenates.
  destruct value as [|b|z|s|items|d]; try done;
    rewrite truthy_not_falsy; by destruct (spec_falsy _).
Qed.

(** C6. Whatever the option mapping, [_construct_docker_command] returns the
    two leading tokens followed, pair by pair in iteration order, by what the
    serialization rule gives: the flag with each element of a list, the flag
    once with a value that is neither a list nor falsy, nothing for a falsy
    value. *)
Theorem construct_docker_command_serializes (command : string) (kwargs : dict) :
  _construct_docker_command command kwargs
  = (["docker"; command] ++ flat_map spec_option_flags kwargs)%list.
Proof.
  unfold _construct_docker_command. rewrite construct_docker_command_from.
  f_equal. induction kwargs as [|kv kwargs IH]; simpl; [done|].
  by rewrite IH, option_flags_spec.
Qed.

Lemma get_None_not_key (k : string) (d : dict) :
  Dict.get k d = None <-> ~ In k (Dict.keys d).
Proof.
  induction d as [|[k' v] d IH]; simpl.
  - tauto.
  - destruct (String.eqb_spec k k') as [->|Hne].
    + split; [discriminate | tauto].
    + rewrite IH. split; [intros Hn [He|Hi]; congruence | tauto].
Qed.

(** C10. [_construct_docker_run_command] raises [KeyError] exactly when the
    mapping has no [command] key; with the key present, whatever its value,
    it returns the token list. *)
Theorem run_command_needs_command_key (image : string) (kwargs : dict) :
  (~ In "command" (Dict.keys kwargs)
   /\ _construct_docker_run_command image kwargs = Raise (KeyError "command"))
  \/ (exists command,
        Dict.get "command" kwargs = Some command
        /\ _construct_docker_run_command image kwargs
           = Ok (map PStr (_construct_docker_command "run" (Dict.remove "command" kwargs))
                   ++ [PStr "-d"; PStr image]
                   ++ (if truthy command then [command] else []))%list).
Proof.
  unfold _construct_docker_run_command, Dict.pop.
  destruct (Dict.get "command" kwargs) as [command|] eqn:Hget.
  - right. exists command. split; [done|].
    destruct (truthy command); f_equal; by rewrite <- ?app_assoc, ?app_nil_r.
  - left. split; [by apply get_None_not_key | done].
Qed.

(** ** The persisted record *)

(** [s] holds no newline character. *)
Definition one_line (s : string) : Prop := PyString.contains PyString.newline s = false.

Lemma one_line_cons (c : ascii) (s : string) :
  one_line (String c s) <-> c <> "010"%char /\ one_line s.
Proof.
  unfold one_line.
  change (PyString.contains PyString.newline (String c s))
    with ((if ascii_dec "010" c then String.prefix EmptyString s else false)
          || PyString.contains PyString.newline s).
  destruct (ascii_dec "010" c) as [<-|Hne].
  - split; [destruct s; discriminate | tauto].
  - split; [intros Hs; split; [by intros -> | done] | tauto].
Qed.

Lemma readline_one_line (s rest : string) :
  one_line s ->
  PyString.readline (s ++ PyString.newline ++ rest) = (s ++ PyString.newline, rest).
Proof.
  induction s as [|c s IH]; intros Hs; simpl.
  - done.
  - apply one_line_cons in Hs as [Hc Hs].
    destruct (Ascii.eqb_spec c "010"%char) as [->|_]; [done|].
    by rewrite (IH Hs).
Qed.

Lemma readline_last_line (s : string) :
  one_line s -> PyString.readline s = (s, EmptyString).
Proof.
  induction s as [|c s IH]; intros Hs; simpl.
  - done.
  - apply one_line_cons in Hs as [Hc Hs].
    destruct (Ascii.eqb_spec c "010"%char) as [->|_]; [done|].
    by rewrite (IH Hs).
Qed.

Lemma strip_newline_terminated (s : string) :
  PyString.strip_newline (s ++ PyString.newline) = s.
Proof.
  induction s as [|c s IH]; simpl.
  - done.
  - rewrite IH. by destruct s.
Qed.

Lemma strip_newline_one_line (s : string) :
  one_line s -> PyString.strip_newline s = s.
Proof.
  induction s as [|c s IH]; intros Hs; simpl.
  - done.
  - apply one_line_cons in Hs as [Hc Hs]. rewrite (IH Hs).
    destruct s; [|done].
    by destruct (Ascii.eqb_spec c "010"%char).
Qed.

(** What [__init__] reads back from a record that [__del__] wrote: the two
    command strings, as long as neither holds a newline. *)
Lemma record_round_trip (build_str run_str : string) :
  one_line build_str -> one_line run_str ->
  let '(line1, unread) :=
    PyString.readline (build_str ++ PyString.newline ++ run_str) in
  let '(line2, _) := PyString.readline unread in
  PyString.strip_newline line1 = build_str /\ PyString.strip_newline line2 = run_str.
Proof.
  intros Hb Hr.
  rewrite (readline_one_line _ _ Hb), (readline_last_line _ Hr).
  split; [apply strip_newline_terminated | by apply strip_newline_one_line].
Qed.

Lemma readline_line_one_line (s : string) :
  one_line (PyString.strip_newline (fst (PyString.readline s))).
Proof.
  induction s as [|c s IH]; simpl.
  - done.
  - destruct (Ascii.eqb_spec c "010"%char) as [->|Hc]; [done|].
    destruct (PyString.readline s) as [line rest] eqn:Hrd; simpl in *.
    destruct line as [|c' line].
    + destruct (Ascii.eqb_spec c "010"%char); [done|].
      apply one_line_cons; by split.
    + apply one_line_cons; by split.
Qed.

(** ... and a run command that holds a newline never reads back as itself:
    the second line of the record stops at that newline. *)
Lemma record_drifts_on_newline (build_str run_str : string) :
  one_line build_str -> ~ one_line run_str ->
  let '(line1, unread) :=
    PyString.readline (build_str ++ PyString.newline ++ run_str) in
  let '(line2, _) := PyString.readline unread in
  PyString.strip_newline line2 <> run_str.
Proof.
  intros Hb Hr.
  rewrite (readline_one_line _ _ Hb).
  destruct (PyString.readline run_str) as [line2 rest] eqn:Hrd.
  intros Heq. apply Hr. rewrite <- Heq.
  pose proof (readline_line_one_line run_str) as Hl. by rewrite Hrd in Hl.
Qed.

(** ** Construction *)

Lemma take_append (s t : string) :
  PyString.take (String.length s) (s ++ t) = s.
Proof. induction s as [|c s IH]; simpl; [by destruct t | by rewrite IH]. Qed.

Lemma length_append (s t : string) :
  String.length (s ++ t) = (String.length s + String.length t)%nat.
Proof. induction s as [|c s IH]; simpl; [done | by rewrite IH]. Qed.

(** [(stem + ':local')[:-6]] is [stem]. *)
Lemma slice_off_local (stem : string) :
  PyString.slice_to_neg 6 (stem ++ ":local") = stem.
Proof.
  unfold PyString.slice_to_neg. rewrite length_append. simpl.
  replace (String.length stem + 6 - 6)%nat with (String.length stem) by lia.
  apply take_append.
Qed.

(** [(stem + ':local')[-6:]] is [':local']: the slice that looks at the tag. *)
Lemma slice_local_tag (stem : string) :
  PyString.slice_from_neg 6 (stem ++ ":local") = ":local".
Proof.
  unfold PyString.slice_from_neg. rewrite length_append. simpl.
  replace (String.length stem + 6 - 6)%nat with (String.length stem) by lia.
  induction stem as [|c stem IH]; simpl; [done | exact IH].
Qed.

(** The test on the reserved tag compares all but the last six characters
    with [':local']: of the references that end in [:local], it refuses
    [:local:local] and nothing else. *)
Lemma local_or_remote_reserved_tag (stem : string) (path : pyval) :
  truthy path = false ->
  local_or_remote (PStr (stem ++ ":local")) path
  = if String.eqb stem ":local"
    then Raise (InvalidArgumentException
                  "The 'local' tag is reserved for locally built images")
    else Ok (stem ++ ":local", false).
Proof.
  intros Hp. unfold local_or_remote. rewrite Hp, slice_off_local. done.
Qed.

Section Construction.

Context {H : Type} `{Host H}.

(** The arguments of a remote container [web] whose image reference ends
    in the reserved tag. *)
Definition reserved_tag_kwargs (stem : string) : dict :=
  [("name", PStr "web"); ("image", PStr (stem ++ ":local")); ("path", PNone);
   ("command", PNone); ("build_args", PNone)].

(** C3. In remote-pull mode an image reference that ends in [:local] is
    not refused: the constructor returns a container for it (the one
    reference it refuses is [:local:local]). *)
Theorem reserved_tag_is_accepted (stem : string) (s : Sys H) :
  stem <> ":local" ->
  exists c s',
    Container_init (reserved_tag_kwargs stem) s = (Ok c, s')
    /\ image c = stem ++ ":local"
    /\ is_local_image c = false
    /\ calls s' = calls s.
Proof.
  intros Hstem.
  unfold Container_init, reserved_tag_kwargs, mbind, M_bind, lift. simpl.
  rewrite (local_or_remote_reserved_tag stem PNone eq_refl).
  destruct (String.eqb_spec stem ":local") as [->|_]; [done|].
  unfold open_commands_file.
  destruct (files s !! _) as [content|]; simpl;
    repeat match goal with
      | |- context [PyString.readline ?x] => destruct (PyString.readline x)
      end;
    by eexists _, _.
Qed.

Lemma get_remove_ne (k k' : string) (d : dict) :
  k <> k' -> Dict.get k' (Dict.remove k d) = Dict.get k' d.
Proof.
  intros Hne. induction d as [|[k0 v] d IH]; simpl; [done|].
  destruct (String.eqb_spec k k0) as [<-|Hk]; simpl.
  - destruct (String.eqb_spec k' k); congruence.
  - by rewrite IH.
Qed.

(** Without an image, the constructor raises [TypeError] at the test on
    [self.image], before it touches a file. *)
Lemma init_without_image (kwargs : dict) (s : Sys H) :
  is_Some (Dict.get "name" kwargs) ->
  Dict.get "image" kwargs = None \/ Dict.get "image" kwargs = Some PNone ->
  Container_init kwargs s = (Raise TypeError, s).
Proof.
  intros [name Hname] Himage.
  unfold Container_init, mbind, M_bind, lift. rewrite Hname.
  assert (fst (Dict.pop_default "image" PNone kwargs) = PNone) as Himg.
  { unfold Dict.pop_default, Dict.pop. by destruct Himage as [-> | ->]. }
  destruct (Dict.pop_default "image" PNone kwargs) as [image kwargs1].
  simpl in Himg; subst image.
  destruct (Dict.pop_default "path" PNone kwargs1) as [path kwargs2].
  unfold local_or_remote. by destruct (truthy path).
Qed.

(** C5. With [state = stopped] and no image ([image] missing or [None])
    the module does not reconcile anything: the constructor raises a
    [TypeError] that [run_module] does not handle, and nothing has been
    asked of the runtime. *)
Theorem stopped_without_image_fails (params : dict) (s : Sys H) :
  Dict.get "state" params = Some (PStr "stopped") ->
  is_Some (Dict.get "name" params) ->
  Dict.get "image" params = None \/ Dict.get "image" params = Some PNone ->
  run_module params s = (Uncaught TypeError, s).
Proof.
  intros Hstate Hname Himage.
  unfold run_module, Dict.pop. rewrite Hstate. simpl.
  rewrite init_without_image; [done | |]; by rewrite get_remove_ne.
Qed.

End Construction.

(** ** The reconciler, on every host *)

Section ReconcilerFacts.

Context {H : Type} `{Host H}.

#[local] Arguments PyString.slice_to : simpl never.

(** The state once [exec_command] has returned: the host it left and one
    more call in the log. *)
Definition logged (st : State H) (h : H) (argv : list string) (cwd : option string)
  : State H :=
  {| self := self st;
     sys := {| host := h; files := files (sys st);
               calls := (calls (sys st) ++ [(argv, cwd)])%list |} |}.

Definition with_self (f : Container -> Container) (st : State H) : State H :=
  {| self := f (self st); sys := sys st |}.

Lemma exec_unfold (argv : list string) (cwd : option string) (st : State H) :
  exec argv cwd st
  = match exec_command argv cwd (host (sys st)) with
    | (Exit0 output, h) => (Ok output, logged st h argv cwd)
    | (NonZero output, h) => (Raise (CalledProcessError argv output), logged st h argv cwd)
    | (CannotStart, h) => (Raise OSError, logged st h argv cwd)
    end.
Proof.
  unfold exec, logged.
  by destruct (exec_command argv cwd (host (sys st))) as [[output|output|] h].
Qed.

(** What the probe makes of the answer to its query.  (A client that cannot
    be started gives no answer: [running] raises then.) *)
Definition probe (r : completed) : option bool :=
  match r with
  | Exit0 output => Some (PyString.contains "true" output)
  | NonZero _ => None
  | CannotStart => None
  end.

Lemma running_unfold (st : State H) :
  running st
  = let '(r, h) := exec_command (running_query (name (self st))) None (host (sys st)) in
    (match r with
     | CannotStart => Raise OSError
     | _ => Ok (probe r)
     end,
     logged st h (running_query (name (self st))) None).
Proof.
  unfold running, try_except, mbind, M_bind, get_self, mret, M_ret.
  rewrite exec_unfold.
  by destruct (exec_command _ None (host (sys st))) as [[output|output|] h].
Qed.

Lemma needs_pull_unfold (st : State H) :
  needs_pull st
  = match exec_command (id_query (image (self st))) None (host (sys st)) with
    | (Exit0 output, h) =>
        (Ok (String.eqb output EmptyString), logged st h (id_query (image (self st))) None)
    | (NonZero _, h) =>
        (Ok true,
         with_self (add_reason "Image not found, needs pull")
                   (logged st h (id_query (image (self st))) None))
    | (CannotStart, h) =>
        (Raise OSError, logged st h (id_query (image (self st))) None)
    end.
Proof.
  unfold needs_pull, try_except, mbind, M_bind, get_self, mret, M_ret, modify_self.
  rewrite exec_unfold.
  destruct (exec_command _ None (host (sys st))) as [[output|output|] h]; simpl;
    [|done..].
  by rewrite negb_involutive.
Qed.

(** C8. A failing query is read as absence and is not raised: [running]
    returns [None] when its [inspect] exits with a nonzero status,
    [needs_pull] returns [True] when its [inspect] exits with a nonzero
    status or prints nothing.  Neither of the two raises, whatever the
    client answers; the one exception that passes through them is the
    [OSError] of a client that could not be started at all. *)
Theorem query_failure_means_absent (st : State H) :
  (forall output h,
      exec_command (running_query (name (self st))) None (host (sys st))
      = (NonZero output, h) ->
      fst (running st) = Ok None)
  /\ (forall output h,
         exec_command (id_query (image (self st))) None (host (sys st))
         = (NonZero output, h) ->
         fst (needs_pull st) = Ok true)
  /\ (forall h,
         exec_command (id_query (image (self st))) None (host (sys st))
         = (Exit0 EmptyString, h) ->
         fst (needs_pull st) = Ok true)
  /\ ((exists runs, fst (running st) = Ok runs)
      \/ fst (running st) = Raise OSError
         /\ fst (exec_command (running_query (name (self st))) None (host (sys st)))
            = CannotStart)
  /\ ((exists missing, fst (needs_pull st) = Ok missing)
      \/ fst (needs_pull st) = Raise OSError
         /\ fst (exec_command (id_query (image (self st))) None (host (sys st)))
            = CannotStart).
Proof.
  rewrite running_unfold, needs_pull_unfold.
  repeat split.
  - by intros output h ->.
  - by intros output h ->.
  - by intros h ->.
  - destruct (exec_command _ None (host (sys st))) as [[output|output|] h];
      (left; by eexists) || by right.
  - destruct (exec_command (id_query _) None (host (sys st))) as [[output|output|] h];
      (left; by eexists) || by right.
Qed.

(** *** needs_rebuild *)

(** The files that the two loops of [needs_rebuild] visit, in order: each
    file name joined to the directory that lists it. *)
Definition walk_paths (walk : list (string * list string * list string)) : list string :=
  flat_map (fun entry => let '(root, _, filenames) := entry in
                         map (os_path_join root) filenames) walk.

(** The comparison that [needs_rebuild] makes for the file at [p]: the date
    and time [t] is earlier than the date and time at which, by the clock of
    the host, the file was last modified. *)
Definition reads_as_newer (t : Z) (h : H) (p : string) : bool :=
  match getmtime p h with
  | Some mtime => t <? fromtimestamp mtime h
  | None => false
  end.

Lemma newer_in_files_scans (t : Z) (root : string) (filenames : list string)
      (st : State H) :
  Forall (fun p => is_Some (getmtime p (host (sys st))))
         (map (os_path_join root) filenames) ->
  exists st',
    newer_in_files t root filenames st
    = (Ok (existsb (reads_as_newer t (host (sys st))) (map (os_path_join root) filenames)),
       st')
    /\ sys st' = sys st.
Proof.
  induction filenames as [|filename rest IH]; simpl; intros Hstat.
  - by eexists.
  - apply Forall_cons in Hstat as [[mtime Hm] Hrest].
    unfold mbind, M_bind, get_host, reads_as_newer at 1. simpl. rewrite Hm.
    destruct (t <? fromtimestamp mtime (host (sys st))); simpl.
    + by eexists.
    + by apply IH.
Qed.

Lemma newer_in_walk_scans (t : Z) (walk : list (string * list string * list string))
      (st : State H) :
  Forall (fun p => is_Some (getmtime p (host (sys st)))) (walk_paths walk) ->
  exists st',
    newer_in_walk t walk st
    = (Ok (existsb (reads_as_newer t (host (sys st))) (walk_paths walk)), st')
    /\ sys st' = sys st.
Proof.
  revert st.
  induction walk as [|[[root subdirs] filenames] rest IH]; simpl; intros st Hstat.
  - by eexists.
  - apply Forall_app in Hstat as [Hhere Hrest].
    destruct (newer_in_files_scans t root filenames st Hhere) as (st1 & Hrun & Hsys).
    unfold mbind, M_bind. rewrite Hrun, existsb_app.
    destruct (existsb _ (map _ filenames)); simpl.
    + by eexists.
    + rewrite <- Hsys in Hrest |- *. by apply IH.
Qed.

(** What [needs_rebuild] decides, and on what.  It answers [True] without
    asking the runtime when the build command differs from the recorded one,
    and [True] when the query for the creation time of the image exits with
    a nonzero status.  Otherwise it parses the first 26 characters of what
    docker printed: if they are no date and time with a fraction of a second
    it raises [ValueError]; if they are the date and time [t] and every file
    of the walk has a modification time, it answers [True] exactly when, for
    one of these files, [t] is earlier than the date and time it was
    modified at by the clock of the host.  On a host whose clock shows UTC,
    as docker does, this is to say that the file was modified after [t]. *)
Lemma needs_rebuild_scans (st : State H) :
  (build_command_str (self st) <> prev_build_command (self st) ->
   needs_rebuild st
   = (Ok true, with_self (add_reason "Arguments changed for build command") st))
  /\ (build_command_str (self st) = prev_build_command (self st) ->
      forall output h,
        exec_command (created_query (image (self st))) None (host (sys st))
        = (NonZero output, h) ->
        fst (needs_rebuild st) = Ok true)
  /\ (build_command_str (self st) = prev_build_command (self st) ->
      forall output h,
        exec_command (created_query (image (self st))) None (host (sys st))
        = (Exit0 output, h) ->
        Datetime.strptime (PyString.slice_to 26 output) = None ->
        needs_rebuild st
        = (Raise ValueError, logged st h (created_query (image (self st))) None))
  /\ (build_command_str (self st) = prev_build_command (self st) ->
      forall output h t top,
        exec_command (created_query (image (self st))) None (host (sys st))
        = (Exit0 output, h) ->
        Datetime.strptime (PyString.slice_to 26 output) = Some t ->
        path (self st) = Some top ->
        Forall (fun p => is_Some (getmtime p h)) (walk_paths (os_walk top h)) ->
        exists stale,
          fst (needs_rebuild st) = Ok stale
          /\ (stale = true <->
              exists p mtime,
                In p (walk_paths (os_walk top h))
                /\ getmtime p h = Some mtime /\ t < fromtimestamp mtime h)
          /\ ((forall instant, fromtimestamp instant h = instant) ->
              stale = true <->
              exists p mtime,
                In p (walk_paths (os_walk top h))
                /\ getmtime p h = Some mtime /\ t < mtime)).
Proof.
  unfold needs_rebuild, mbind, M_bind, get_self, try_except, mret, M_ret, modify_self.
  repeat split.
  - intros Hne. apply String.eqb_neq in Hne. by rewrite Hne.
  - intros Heq output h Hq. apply String.eqb_eq in Heq. rewrite Heq. simpl.
    by rewrite exec_unfold, Hq.
  - intros Heq output h Hq Ht. apply String.eqb_eq in Heq. rewrite Heq. simpl.
    rewrite exec_unfold, Hq. simpl. by rewrite Ht.
  - intros Heq output h t top Hq Ht Hpath Hstat.
    apply String.eqb_eq in Heq. rewrite Heq. simpl.
    rewrite exec_unfold, Hq. simpl. rewrite Ht, Hpath. simpl.
    destruct (newer_in_walk_scans t (os_walk top h)
                (logged st h (created_query (image (self st))) None) Hstat)
      as (st' & Hrun & _).
    unfold get_host. simpl in *. rewrite Hrun. simpl.
    assert (existsb (reads_as_newer t h) (walk_paths (os_walk top h)) = true <->
            exists p mtime,
              In p (walk_paths (os_walk top h))
              /\ getmtime p h = Some mtime /\ t < fromtimestamp mtime h) as Hscan.
    { rewrite existsb_exists. unfold reads_as_newer. split.
      - intros (p & Hin & Hnew). destruct (getmtime p h) as [mtime|] eqn:Hm; [|done].
        exists p, mtime. repeat split; [done..|]. by apply Z.ltb_lt.
      - intros (p & mtime & Hin & Hm & Hlt). exists p. split; [done|].
        rewrite Hm. by apply Z.ltb_lt. }
    eexists; split; [done|]. split; [exact Hscan|].
    intros Hutc. rewrite Hscan.
    split; intros (p & mtime & Hin & Hm & Hlt); exists p, mtime;
      repeat split; try done; by rewrite ?Hutc in *.
Qed.

(** *** Primitive actions *)

(** The state after an action that went through: its reason is on the
    trail, [changed] is set and the call is in the log. *)
Definition acted (reason : string) (st : State H) (h : H) (argv : list string)
           (cwd : option string) : State H :=
  with_self (fun c => set_changed true (add_reason reason c)) (logged st h argv cwd).

Ltac unfold_action :=
  unfold mbind, M_bind, get_self, modify_self, mret, M_ret; simpl;
  rewrite exec_unfold; simpl;
  match goal with
  | |- context [exec_command ?argv ?cwd ?h] =>
      destruct (exec_command argv cwd h) as [[? | ? |] ?]
  end; reflexivity.

Lemma run_unfold (st : State H) :
  run st
  = match exec_command (run_command (self st)) None (host (sys st)) with
    | (Exit0 _, h) =>
        (Ok tt, acted "Executed 'docker run'" st h (run_command (self st)) None)
    | (NonZero output, h) =>
        (Raise (CalledProcessError (run_command (self st)) output),
         logged st h (run_command (self st)) None)
    | (CannotStart, h) => (Raise OSError, logged st h (run_command (self st)) None)
    end.
Proof. unfold run. unfold_action. Qed.

(** [start], [stop], [rm] and [restart] note their reason before they call
    the runtime. *)
Definition named_action (verb reason : string) (st : State H) : result unit * State H :=
  let argv := ["docker"; verb; name (self st)] in
  match exec_command argv None (host (sys st)) with
  | (Exit0 _, h) => (Ok tt, acted reason st h argv None)
  | (NonZero output, h) =>
      (Raise (CalledProcessError argv output),
       with_self (add_reason reason) (logged st h argv None))
  | (CannotStart, h) =>
      (Raise OSError, with_self (add_reason reason) (logged st h argv None))
  end.

Lemma start_unfold (st : State H) :
  start st = named_action "start" "Executed 'docker start'" st.
Proof. unfold start, named_action. unfold_action. Qed.

Lemma stop_unfold (st : State H) :
  stop st = named_action "stop" "Executed 'docker stop'" st.
Proof. unfold stop, named_action. unfold_action. Qed.

Lemma remove_unfold (st : State H) :
  remove st = named_action "rm" "Executed 'docker rm'" st.
Proof. unfold remove, named_action. unfold_action. Qed.

Lemma restart_unfold (st : State H) :
  restart st
  = if changed (self st)
    then (stop;; remove;; run) st
    else named_action "restart" "Executed 'docker restart'" st.
Proof.
  unfold restart, named_action.
  unfold mbind at 1, M_bind at 1, get_self at 1.
  destruct (changed (self st)); [done|]. unfold_action.
Qed.

(** *** The plans *)

(** What Ensure Running does once the image has been dealt with, in the
    words of the specification: the arguments of the actions, in order. *)
Definition spec_running_plan (c : Container) (runs : option bool) : list (list string) :=
  let recreate := changed c || run_command_drifted c in
  match runs with
  | Some true =>
      if recreate
      then [["docker"; "stop"; name c]; ["docker"; "rm"; name c]; run_command c]
      else []
  | None => [run_command c]
  | Some false =>
      if recreate
      then [["docker"; "rm"; name c]; run_command c]
      else [["docker"; "start"; name c]]
  end.

Ltac run_actions :=
  repeat (rewrite ?run_unfold, ?stop_unfold, ?remove_unfold, ?start_unfold;
          unfold named_action; simpl;
          match goal with
          | |- context [exec_command ?argv ?cwd ?h] =>
              destruct (exec_command argv cwd h) as [[? | ? |] ?]
          end; simpl).

(** C2. Let Ensure Running return normally.  After the image step, which
    leaves [changed] set exactly if it built or pulled, the runtime is
    asked whether the container runs and then: a running container is
    stopped, removed and run again if the image changed or the run command
    drifted (and is left alone otherwise); a missing container is run; a
    stopped container is removed and run if the image changed or the run
    command drifted, and started otherwise. *)
Theorem ensure_running_follows_plan (st st1 st' : State H) (r : completed) (h : H) :
  ensure_image_is_updated st = (Ok tt, st1) ->
  exec_command (running_query (name (self st1))) None (host (sys st1)) = (r, h) ->
  ensure_running st = (Ok tt, st') ->
  calls (sys st')
  = (calls (sys st1)
       ++ (running_query (name (self st1)), None)
       :: map (fun argv => (argv, None)) (spec_running_plan (self st1) (probe r)))%list.
Proof.
  intros Himage Hquery.
  unfold ensure_running.
  unfold mbind at 1, M_bind at 1. rewrite Himage.
  unfold mbind at 1, M_bind at 1, get_self at 1.
  unfold mbind at 1, M_bind at 1.
  assert (forall st2 : State H,
             self st2 = self st1 \/ self st2 = add_reason "Arguments changed for run command" (self st1) ->
             sys st2 = sys st1 ->
             forall k : option bool -> M (State H) unit,
               (runs ← running; k runs) st2
               = match r with
                 | CannotStart =>
                     (Raise OSError, logged st2 h (running_query (name (self st1))) None)
                 | _ => k (probe r) (logged st2 h (running_query (name (self st1))) None)
                 end)
    as Hprobe.
  { intros st2 Hself Hsys k. unfold mbind, M_bind. rewrite running_unfold.
    replace (name (self st2)) with (name (self st1)) by (by destruct Hself as [-> | ->]).
    rewrite Hsys, Hquery. by destruct r. }
  unfold spec_running_plan, run_command_drifted.
  destruct (negb (run_command_str (self st1) =? prev_run_command (self st1))%string)
    eqn:Hdrift;
    [ unfold modify_self at 1 | unfold mret at 1, M_ret at 1 ];
    (rewrite Hprobe; [| (by left) || (by right) | done]);
    (destruct r as [output|output|]; [| |discriminate]); simpl;
    try destruct (PyString.contains "true" output);
    unfold mbind, M_bind, get_self; simpl;
    rewrite ?Hdrift, ?orb_true_r, ?orb_false_r.
  all: try destruct (changed (self st1)); simpl.
  all: unfold mbind, M_bind, mret, M_ret.
  all: run_actions.
  all: intros Hrun; inversion Hrun; subst; simpl.
  all: by rewrite <- ?app_assoc.
Qed.

(** *** Ensure Restarted *)

(** A call that belongs to the image step: a build, a pull, or one of the
    two queries about the image. *)
Definition image_freshness_call (argv : list string) : bool :=
  match argv with
  | _ :: sub :: rest =>
      if String.eqb sub "build" || String.eqb sub "pull" then true
      else if String.eqb sub "inspect"
           then match rest with
                | [_; format; _] =>
                    String.eqb format "{{.Created}}" || String.eqb format "{{.ID}}"
                | _ => false
                end
           else false
  | _ => false
  end.

(** C9. Ensure Restarted makes no call of the image step, however it ends;
    and when the container runs and [changed] is not yet set, the calls it
    makes are the query and one restart, after which, if the restart went
    through, [changed] is set. *)
Theorem ensure_restarted_skips_image (st st' : State H) (res : result unit)
        (rest : list string) :
  run_command (self st) = "docker" :: "run" :: rest ->
  ensure_restarted st = (res, st') ->
  (exists made,
      calls (sys st') = (calls (sys st) ++ made)%list
      /\ Forall (fun c => image_freshness_call (fst c) = false) made)
  /\ (forall r h,
         exec_command (running_query (name (self st))) None (host (sys st)) = (r, h) ->
         probe r = Some true ->
         changed (self st) = false ->
         calls (sys st')
         = (calls (sys st)
              ++ [(running_query (name (self st)), None);
                  (["docker"; "restart"; name (self st)], None)])%list
         /\ (res = Ok tt -> changed (self st') = true)).
Proof.
  intros Hcmd.
  unfold ensure_restarted.
  unfold mbind at 1, M_bind at 1. rewrite running_unfold.
  destruct (exec_command (running_query (name (self st))) None (host (sys st)))
    as [r h] eqn:Hquery.
  destruct r as [output|output|]; simpl;
    try destruct (PyString.contains "true" output) eqn:Htrue; simpl;
    rewrite ?restart_unfold; simpl;
    unfold mbind, M_bind, get_self; simpl;
    destruct (changed (self st)) eqn:Hchanged; simpl;
    run_actions;
    intros Hrun; inversion Hrun; subst; clear Hrun;
    unfold acted, logged, with_self; simpl;
    rewrite <- ?app_assoc; simpl; rewrite ?Hcmd.
  all: split;
    [ eexists; split;
      [ reflexivity
      | repeat (apply List.Forall_cons; [reflexivity|]); apply List.Forall_nil ]
    | intros r' h' Hq' Hprobe Hch; inversion Hq'; subst; simpl in Hprobe;
      try congruence; by try discriminate ].
Qed.

End ReconcilerFacts.

(** ** What a reconciliation leaves alone *)

Section Frame.

Context {H : Type} `{Host H}.

(** Two containers that differ at most in [changed] and [change_reason]. *)
Definition same_spec (c c' : Container) : Prop :=
  name c' = name c
  /\ image c' = image c
  /\ path c' = path c
  /\ is_local_image c' = is_local_image c
  /\ prev_commands_file c' = prev_commands_file c
  /\ prev_build_command c' = prev_build_command c
  /\ prev_run_command c' = prev_run_command c
  /\ build_command c' = build_command c
  /\ run_command c' = run_command c
  /\ build_command_str c' = build_command_str c
  /\ run_command_str c' = run_command_str c.

Lemma same_spec_refl (c : Container) : same_spec c c.
Proof. by repeat split. Qed.

Lemma same_spec_trans (c1 c2 c3 : Container) :
  same_spec c1 c2 -> same_spec c2 c3 -> same_spec c1 c3.
Proof. unfold same_spec. intros ? ?. intuition congruence. Qed.

(** A method that writes no file and leaves the specification of [self]
    as it is, whether it returns or raises. *)
Definition frames {A : Type} (m : M (State H) A) : Prop :=
  forall st r st',
    m st = (r, st') ->
    files (sys st') = files (sys st) /\ same_spec (self st) (self st').

Lemma frames_ret {A : Type} (a : A) : frames (mret a).
Proof. intros st r st' Heq. inversion Heq; subst. split; [done | apply same_spec_refl]. Qed.

Lemma frames_raise {A : Type} (e : exn) : frames (raise e : M (State H) A).
Proof. intros st r st' Heq. inversion Heq; subst. split; [done | apply same_spec_refl]. Qed.

Lemma frames_bind {A B : Type} (m : M (State H) A) (f : A -> M (State H) B) :
  frames m -> (forall a, frames (f a)) -> frames (m ≫= f).
Proof.
  intros Hm Hf st r st'. unfold mbind, M_bind.
  destruct (m st) as [[a|e] st1] eqn:Hrun; intros Heq.
  - destruct (Hm _ _ _ Hrun) as [Hfiles Hspec].
    destruct (Hf a _ _ _ Heq) as [Hfiles' Hspec'].
    split; [congruence | by eapply same_spec_trans].
  - inversion Heq; subst. by apply (Hm _ _ _ Hrun).
Qed.

Lemma frames_try {A : Type} (body handler : M (State H) A) :
  frames body -> frames handler -> frames (try_except body handler).
Proof.
  intros Hb Hh st r st'. unfold try_except.
  destruct (body st) as [[a|e] st1] eqn:Hrun; intros Heq.
  - inversion Heq; subst. by apply (Hb _ _ _ Hrun).
  - destruct (Hb _ _ _ Hrun) as [Hfiles Hspec].
    destruct e; try (inversion Heq; subst; by split).
    destruct (Hh _ _ _ Heq) as [Hfiles' Hspec'].
    split; [congruence | by eapply same_spec_trans].
Qed.

Lemma frames_get_self : frames get_self.
Proof. intros st r st' Heq. inversion Heq; subst. split; [done | apply same_spec_refl]. Qed.

Lemma frames_get_host : frames get_host.
Proof. intros st r st' Heq. inversion Heq; subst. split; [done | apply same_spec_refl]. Qed.

Lemma frames_add_reason (reason : string) : frames (modify_self (add_reason reason)).
Proof. intros st r st' Heq. inversion Heq; subst. by repeat split. Qed.

Lemma frames_set_changed (b : bool) : frames (modify_self (set_changed b)).
Proof. intros st r st' Heq. inversion Heq; subst. by repeat split. Qed.

Lemma frames_exec (argv : list string) (cwd : option string) : frames (exec argv cwd).
Proof.
  intros st r st'. rewrite exec_unfold.
  destruct (exec_command argv cwd (host (sys st))) as [[output|output|] h];
    intros Heq; inversion Heq; subst; split; done || apply same_spec_refl.
Qed.

Create HintDb frames.

Ltac frames :=
  repeat first
    [ assumption | solve [auto with frames nocore] | apply frames_ret | apply frames_raise | apply frames_get_self
    | apply frames_get_host | apply frames_add_reason | apply frames_set_changed
    | apply frames_exec
    | apply frames_try
    | apply frames_bind; [| intros ?]
    | match goal with
      | |- frames (if ?b then _ else _) => destruct b
      | |- frames (match ?x with _ => _ end) => destruct x
      end ].

Lemma frames_running : frames running.
Proof. unfold running. frames. Qed.
#[local] Hint Resolve frames_running : frames.

Lemma frames_needs_pull : frames needs_pull.
Proof. unfold needs_pull. frames. Qed.
#[local] Hint Resolve frames_needs_pull : frames.

Lemma frames_newer_in_files (t : Z) (root : string) (filenames : list string) :
  frames (newer_in_files t root filenames).
Proof. induction filenames as [|filename rest IH]; simpl; frames. Qed.
#[local] Hint Resolve frames_newer_in_files : frames.

Lemma frames_newer_in_walk (t : Z) (walk : list (string * list string * list string)) :
  frames (newer_in_walk t walk).
Proof.
  induction walk as [|[[root subdirs] filenames] rest IH]; simpl; frames.
Qed.
#[local] Hint Resolve frames_newer_in_walk : frames.

Lemma frames_needs_rebuild : frames needs_rebuild.
Proof. unfold needs_rebuild. frames. Qed.
#[local] Hint Resolve frames_needs_rebuild : frames.

Lemma frames_run : frames run.
Proof. unfold run. frames. Qed.
#[local] Hint Resolve frames_run : frames.

Lemma frames_start : frames start.
Proof. unfold start. frames. Qed.
#[local] Hint Resolve frames_start : frames.

Lemma frames_stop : frames stop.
Proof. unfold stop. frames. Qed.
#[local] Hint Resolve frames_stop : frames.

Lemma frames_remove : frames remove.
Proof. unfold remove. frames. Qed.
#[local] Hint Resolve frames_remove : frames.

Lemma frames_build : frames build.
Proof. unfold build. frames. Qed.
#[local] Hint Resolve frames_build : frames.

Lemma frames_pull : frames pull.
Proof. unfold pull. frames. Qed.
#[local] Hint Resolve frames_pull : frames.

Lemma frames_restart : frames restart.
Proof.
  unfold restart. frames.
Qed.
#[local] Hint Resolve frames_restart : frames.

Lemma frames_ensure_image_is_updated : frames ensure_image_is_updated.
Proof.
  unfold ensure_image_is_updated. frames.
Qed.
#[local] Hint Resolve frames_ensure_image_is_updated : frames.

Lemma frames_ensure_running : frames ensure_running.
Proof.
  unfold ensure_running. frames.
Qed.
#[local] Hint Resolve frames_ensure_running : frames.

Lemma frames_ensure_stopped : frames ensure_stopped.
Proof. unfold ensure_stopped. frames. Qed.
#[local] Hint Resolve frames_ensure_stopped : frames.

Lemma frames_ensure_restarted : frames ensure_restarted.
Proof.
  unfold ensure_restarted. frames.
Qed.
#[local] Hint Resolve frames_ensure_restarted : frames.

(** Whatever the state asked for, the reconciliation writes no file and
    keeps the commands of the container. *)
Lemma frames_dispatch (state : pyval) : frames (dispatch state).
Proof.
  unfold dispatch. frames.
Qed.

End Frame.

(** ** Finalisation *)

Section Finalisation.

Context {H : Type} `{Host H}.

Lemma as_strings_Ok (tokens : list pyval) (l : list string) :
  as_strings tokens = Ok l -> tokens = map PStr l.
Proof.
  revert l. induction tokens as [|v tokens IH]; simpl; intros l Hl.
  - by inversion Hl.
  - destruct v; try discriminate.
    destruct (as_strings tokens) as [l'|]; [|discriminate].
    inversion Hl; subst. simpl. by rewrite (IH l').
Qed.

Lemma bind_Ok {S A B : Type} (m : M S A) (f : A -> M S B) (s s' : S) (b : B) :
  (m ≫= f) s = (Ok b, s') ->
  exists a s1, m s = (Ok a, s1) /\ f a s1 = (Ok b, s').
Proof.
  unfold mbind, M_bind. destruct (m s) as [[a|e] s1]; [|discriminate].
  intros Hf. by exists a, s1.
Qed.

Lemma lift_Ok {S A : Type} (r : result A) (s s' : S) (a : A) :
  lift r s = (Ok a, s') -> r = Ok a /\ s' = s.
Proof. unfold lift. intros Heq. by inversion Heq. Qed.

(** A container that [__init__] returned: nothing has changed yet, and
    its two commands start with the [docker] subcommand they are for. *)
Lemma init_commands (kwargs : dict) (s s' : Sys H) (c : Container) :
  Container_init kwargs s = (Ok c, s') ->
  changed c = false
  /\ (exists rest, build_command c = "docker" :: "build" :: rest)
  /\ (exists rest, run_command c = "docker" :: "run" :: rest).
Proof.
  unfold Container_init. intros Hinit.
  apply bind_Ok in Hinit as (name & s1 & _ & Hinit).
  destruct (Dict.pop_default "image" PNone kwargs) as [image kwargs1].
  destruct (Dict.pop_default "path" PNone kwargs1) as [path kwargs2].
  apply bind_Ok in Hinit as ([image' is_local] & s2 & _ & Hinit).
  apply bind_Ok in Hinit as (name' & s3 & _ & Hinit).
  apply bind_Ok in Hinit as (content & s4 & _ & Hinit).
  destruct (PyString.readline content) as [line1 unread].
  destruct (PyString.readline unread) as [line2 unread'].
  apply bind_Ok in Hinit as ([build_tokens kwargs3] & s5 & Hbuild & Hinit).
  apply bind_Ok in Hinit as (run_tokens & s6 & Hrun & Hinit).
  apply bind_Ok in Hinit as (run_strings & s7 & Hstrings & Hinit).
  apply lift_Ok in Hbuild as [Hbuild _].
  apply lift_Ok in Hrun as [Hrun _].
  apply lift_Ok in Hstrings as [Hstrings _].
  inversion Hinit; subst; simpl. clear Hinit.
  split; [done|]. split.
  - unfold _construct_docker_build_command in Hbuild.
    destruct (Dict.pop_default "build_args" (PDict []) kwargs2) as [build_args ?].
    destruct build_args; try discriminate;
      try (destruct (Dict.get "command" _); [discriminate|]);
      inversion Hbuild; subst;
      unfold _construct_docker_command; rewrite construct_docker_command_from;
      simpl; by eexists.
  - apply as_strings_Ok in Hstrings.
    unfold _construct_docker_run_command in Hrun.
    destruct (Dict.pop "command" kwargs3) as [[command kwargs4]|]; [|discriminate].
    unfold _construct_docker_command in Hrun.
    rewrite construct_docker_command_from in Hrun. simpl in Hrun.
    destruct run_strings as [|t1 [|t2 rest]];
      destruct (truthy command); inversion Hrun; subst; simpl in *;
      try discriminate;
      match goal with
      | Heq : _ :: _ :: _ = _ :: _ :: _ |- _ => inversion Heq; subst
      end; by eexists.
Qed.

(** So the test in [__del__] never fails: the token lists it looks at are
    never empty. *)
Lemma del_always_writes (kwargs : dict) (s s' : Sys H) (c : Container) :
  Container_init kwargs s = (Ok c, s') ->
  nonempty (run_command c) && nonempty (build_command c) = true.
Proof.
  intros Hinit.
  destruct (init_commands _ _ _ _ Hinit) as (_ & [? ->] & [? ->]). done.
Qed.

(** C4. With [state = stopped] and an image given, the record is not left
    alone: once the module has run, the file holds the build and run
    command of this invocation, whatever it held before. *)
Theorem stopped_overwrites_record (params kwargs : dict) (s s1 : Sys H) (c : Container) :
  Dict.pop "state" params = Some (PStr "stopped", kwargs) ->
  Container_init kwargs s = (Ok c, s1) ->
  files (snd (run_module params s)) !! prev_commands_file c
  = Some (build_command_str c ++ PyString.newline ++ run_command_str c).
Proof.
  intros Hstate Hinit.
  unfold run_module. rewrite Hstate. simpl. rewrite Hinit.
  destruct (dispatch (PStr "stopped") {| self := c; sys := s1 |}) as [r st] eqn:Hrun.
  apply frames_dispatch in Hrun as [_ Hspec]. simpl in Hspec.
  destruct Hspec as (_ & _ & _ & _ & Hfile & _ & _ & Hb & Hr & Hbs & Hrs).
  unfold Container_del.
  rewrite Hb, Hr, (del_always_writes _ _ _ _ Hinit), Hfile, Hbs, Hrs. simpl.
  apply lookup_insert_eq.
Qed.

End Finalisation.

(** ** A second run with the same arguments *)

Section SecondRun.

Context {H : Type} `{Host H}.

#[local] Arguments PyString.slice_to : simpl never.

(** The container with other recorded commands. *)
Definition with_prev (prev_build prev_run : string) (c : Container) : Container :=
  {| changed := changed c;
     change_reason := change_reason c;
     name := name c; image := image c; path := path c;
     is_local_image := is_local_image c;
     prev_commands_file := prev_commands_file c;
     prev_build_command := prev_build;
     prev_run_command := prev_run;
     build_command := build_command c; run_command := run_command c;
     build_command_str := build_command_str c;
     run_command_str := run_command_str c |}.

(** Of the machine, [__init__] looks at the record file and at nothing
    else: on another machine it returns the same container, but for the two
    recorded commands, which are the first two lines of the file there. *)
Lemma init_on_record (kwargs : dict) (s s1 s2 : Sys H) (c : Container) (content : string) :
  Container_init kwargs s = (Ok c, s1) ->
  files s2 !! prev_commands_file c = Some content ->
  Container_init kwargs s2
  = (Ok (with_prev
           (PyString.strip_newline (fst (PyString.readline content)))
           (PyString.strip_newline
              (fst (PyString.readline (snd (PyString.readline content)))))
           c),
     s2)
  /\ change_reason c = [].
Proof.
  unfold Container_init, mbind, M_bind, lift.
  destruct (Dict.get "name" kwargs) as [name|]; [|discriminate].
  destruct (Dict.pop_default "image" PNone kwargs) as [image kwargs1].
  destruct (Dict.pop_default "path" PNone kwargs1) as [path kwargs2].
  destruct (local_or_remote image path) as [[image' is_local]|]; [|discriminate].
  destruct name as [| | |name| |]; try discriminate.
  unfold open_commands_file at 1.
  destruct (files s !! _) as [content0|];
    (destruct (PyString.readline _) as [line1 unread];
     destruct (PyString.readline unread) as [line2 unread'];
     destruct (_construct_docker_build_command image' kwargs2)
       as [[build_tokens kwargs3]|]; [|discriminate];
     destruct (_construct_docker_run_command image' kwargs3)
       as [run_tokens|]; [|discriminate];
     destruct (as_strings run_tokens) as [run_strings|]; [|discriminate];
     unfold mret, M_ret; intros Hinit; inversion Hinit; subst; clear Hinit;
     simpl; intros Hfile; unfold open_commands_file; rewrite Hfile;
     destruct (PyString.readline content) as [l1 u1]; simpl;
     destruct (PyString.readline u1) as [l2 u2];
     by split).
Qed.

(** The query of the image step. *)
Definition image_query (c : Container) : list string :=
  if is_local_image c then created_query (image c) else id_query (image c).

(** The host, asked in state [h], finds the image in place and up to date,
    and is left in state [h']: the image has an ID (pulled image), or it has
    a creation time that, as [needs_rebuild] compares them, no file of the
    build context is newer than (built image). *)
Definition image_is_fresh (c : Container) (h h' : H) : Prop :=
  if is_local_image c
  then exists output t top,
      exec_command (created_query (image c)) None h = (Exit0 output, h')
      /\ Datetime.strptime (PyString.slice_to 26 output) = Some t
      /\ path c = Some top
      /\ Forall (fun p => exists mtime,
                     getmtime p h' = Some mtime /\ fromtimestamp mtime h' <= t)
                (walk_paths (os_walk top h'))
  else exists output,
      exec_command (id_query (image c)) None h = (Exit0 output, h')
      /\ output <> EmptyString.

Lemma newer_in_files_none (t : Z) (root : string) (filenames : list string)
      (st : State H) :
  Forall (fun p => exists mtime,
              getmtime p (host (sys st)) = Some mtime
              /\ fromtimestamp mtime (host (sys st)) <= t)
         (map (os_path_join root) filenames) ->
  newer_in_files t root filenames st = (Ok false, st).
Proof.
  induction filenames as [|filename rest IH]; simpl; intros Hold.
  - done.
  - apply Forall_cons in Hold as [(mtime & Hm & Hle) Hrest].
    unfold mbind, M_bind, get_host. rewrite Hm.
    replace (t <? fromtimestamp mtime (host (sys st))) with false
      by (symmetry; apply Z.ltb_ge; lia).
    by apply IH.
Qed.

Lemma newer_in_walk_none (t : Z) (walk : list (string * list string * list string))
      (st : State H) :
  Forall (fun p => exists mtime,
              getmtime p (host (sys st)) = Some mtime
              /\ fromtimestamp mtime (host (sys st)) <= t)
         (walk_paths walk) ->
  newer_in_walk t walk st = (Ok false, st).
Proof.
  induction walk as [|[[root subdirs] filenames] rest IH]; simpl; intros Hold.
  - done.
  - apply Forall_app in Hold as [Hhere Hrest].
    unfold mbind, M_bind. rewrite (newer_in_files_none _ _ _ _ Hhere).
    by apply IH.
Qed.

(** Nothing to do: with the recorded commands equal to the current ones,
    the image fresh and the container running, Ensure Running asks its two
    questions, acts on nothing and leaves [self] as it was. *)
Lemma ensure_running_settled (st : State H) (h1 h2 : H) (output : string) :
  changed (self st) = false ->
  build_command_str (self st) = prev_build_command (self st) ->
  run_command_str (self st) = prev_run_command (self st) ->
  image_is_fresh (self st) (host (sys st)) h1 ->
  exec_command (running_query (name (self st))) None h1 = (Exit0 output, h2) ->
  PyString.contains "true" output = true ->
  ensure_running st
  = (Ok tt,
     {| self := self st;
        sys := {| host := h2; files := files (sys st);
                  calls := (calls (sys st)
                              ++ [(image_query (self st), None);
                                  (running_query (name (self st)), None)])%list |} |}).
Proof.
  intros Hchanged Hbuild Hrun Hfresh Hquery Htrue.
  assert (ensure_image_is_updated st
          = (Ok tt, logged st h1 (image_query (self st)) None)) as Himage.
  { unfold ensure_image_is_updated, image_is_fresh, image_query in *.
    unfold mbind at 1, M_bind at 1, get_self at 1.
    destruct (is_local_image (self st)).
    - destruct Hfresh as (out & t & top & Hq & Ht & Hpath & Hold).
      unfold mbind at 1, M_bind at 1.
      unfold needs_rebuild, mbind, M_bind, get_self, try_except, mret, M_ret.
      apply String.eqb_eq in Hbuild. rewrite Hbuild. simpl.
      rewrite exec_unfold, Hq. simpl. rewrite Ht, Hpath. unfold get_host. simpl.
      by rewrite newer_in_walk_none.
    - destruct Hfresh as (out & Hq & Hout).
      unfold mbind at 1, M_bind at 1. rewrite needs_pull_unfold, Hq.
      apply String.eqb_neq in Hout. by rewrite Hout. }
  unfold ensure_running.
  unfold mbind at 1, M_bind at 1. rewrite Himage.
  unfold mbind at 1, M_bind at 1, get_self at 1.
  unfold run_command_drifted. simpl.
  apply String.eqb_eq in Hrun. rewrite Hrun. simpl.
  unfold mbind at 1, M_bind at 1, mret at 1, M_ret at 1.
  unfold mbind at 1, M_bind at 1. rewrite running_unfold. simpl.
  rewrite Hquery. simpl. rewrite Htrue.
  unfold mbind, M_bind, get_self. simpl. rewrite Hchanged, Hrun. simpl.
  unfold mret, M_ret, logged. simpl. by rewrite <- app_assoc.
Qed.

(** The two lines that [__del__] writes for a container. *)
Definition record_of (c : Container) : string :=
  build_command_str c ++ PyString.newline ++ run_command_str c.

(** Idempotence of Ensure Running, for commands that hold no newline.  Let
    a first run of the module with [state = running] end in [exit_json].
    If, on the machine it leaves, the image is found fresh and the container
    is found running, a second run with the same arguments makes the two
    queries and nothing else, reports [changed = False] with an empty trail,
    and leaves the record as it is. *)
Theorem second_run_is_quiet_on_one_line
        (params kwargs : dict) (s s0 s1 : Sys H) (c : Container)
        (was_changed : bool) (reasons : list string) (h1 h2 : H) (output : string) :
  Dict.pop "state" params = Some (PStr "running", kwargs) ->
  Container_init kwargs s = (Ok c, s0) ->
  one_line (build_command_str c) ->
  one_line (run_command_str c) ->
  run_module params s = (ExitJson was_changed reasons, s1) ->
  image_is_fresh c (host s1) h1 ->
  exec_command (running_query (name c)) None h1 = (Exit0 output, h2) ->
  PyString.contains "true" output = true ->
  run_module params s1
  = (ExitJson false [],
     {| host := h2; files := files s1;
        calls := (calls s1 ++ [(image_query c, None);
                               (running_query (name c), None)])%list |}).
Proof.
  intros Hstate Hinit Hbuild Hrun Hfirst Hfresh Hquery Htrue.
  unfold run_module in Hfirst. rewrite Hstate in Hfirst.
  destruct (negb (pyval_is_str (PStr "running") "stopped")
            && negb (bool_decide (is_Some (Dict.get "image" kwargs)))) eqn:Hcheck;
    [discriminate|].
  rewrite Hinit in Hfirst.
  destruct (dispatch (PStr "running") {| self := c; sys := s0 |}) as [r st] eqn:Hdispatch.
  apply frames_dispatch in Hdispatch as [_ Hspec]. simpl in Hspec.
  destruct Hspec as (_ & _ & _ & _ & Hf & _ & _ & Hbc & Hrc & Hbs & Hrs).
  pose proof (del_always_writes _ _ _ _ Hinit) as Hguard.
  unfold Container_del in Hfirst. rewrite Hbc, Hrc, Hguard, Hf, Hbs, Hrs in Hfirst.
  assert (files s1 !! prev_commands_file c = Some (record_of c)) as Hfile.
  { destruct r as [[]|[]]; inversion Hfirst; subst; simpl; apply lookup_insert_eq. }
  clear Hfirst.
  destruct (init_on_record _ _ _ _ _ _ Hinit Hfile) as [Hinit2 Hreasons].
  unfold record_of in Hinit2.
  rewrite (readline_one_line _ _ Hbuild) in Hinit2. simpl in Hinit2.
  rewrite (readline_last_line _ Hrun) in Hinit2. simpl in Hinit2.
  rewrite strip_newline_terminated, (strip_newline_one_line _ Hrun) in Hinit2.
  destruct (init_commands _ _ _ _ Hinit) as (Hchanged & _ & _).
  unfold run_module. rewrite Hstate, Hcheck, Hinit2.
  unfold dispatch. simpl.
  rewrite (ensure_running_settled _ h1 h2 output); simpl; try done.
  unfold Container_del. simpl. rewrite Hguard. simpl.
  rewrite Hchanged, Hreasons. f_equal. f_equal.
  by apply insert_id.
Qed.

End SecondRun.

(** ** Runs on the executable host *)

Module Runs.

Import Toy.

Definition record_path : string := "/var/local/ansible/docker_simple/web".

(** The host of [fresh] with the container [web], running or stopped. *)
Definition with_web (is_running : bool) : daemon :=
  with_containers {[ "web" := is_running ]} fresh.

Definition with_record (content : string) (s : Sys daemon) : Sys daemon :=
  {| host := host s; files := <[record_path := content]> (files s); calls := calls s |}.

(** The log of calls is only there to be looked at: start it afresh. *)
Definition forget_calls (s : Sys daemon) : Sys daemon :=
  {| host := host s; files := files s; calls := [] |}.

(** The arguments of a pulled [nginx] container named [web]. *)
Definition web_kwargs : dict :=
  [("name", PStr "web"); ("image", PStr "nginx"); ("path", PNone);
   ("command", PNone); ("build_args", PNone)].

Definition web_params (state : string) : dict := ("state", PStr state) :: web_kwargs.

(** The container that [__init__] makes of [web_kwargs] when the record
    holds [prev_build] and [prev_run]. *)
Definition web (prev_build prev_run : string) : Container :=
  {| changed := false;
     change_reason := [];
     name := "web";
     image := "nginx";
     path := None;
     is_local_image := false;
     prev_commands_file := record_path;
     prev_build_command := prev_build;
     prev_run_command := prev_run;
     build_command := ["docker"; "build"; "--tag"; "nginx"; "--no-cache"; "."];
     run_command := ["docker"; "run"; "--name"; "web"; "-d"; "nginx"];
     build_command_str := "docker build --tag nginx --no-cache .";
     run_command_str := "docker run --name web -d nginx" |}.

Definition old_record : string :=
  "docker build --tag nginx --no-cache ." ++ PyString.newline
    ++ "docker run --name web --publish 80:80 -d nginx".

Example init_web :
  Container_init web_kwargs (with_record old_record (boot (with_web true)))
  = (Ok (web "docker build --tag nginx --no-cache ."
             "docker run --name web --publish 80:80 -d nginx"),
     with_record old_record (boot (with_web true))).
Proof. vm_compute. reflexivity. Qed.

(** The same arguments with an environment variable that holds a
    newline. *)
Definition motd_params : dict :=
  (web_params "running"
     ++ [("env", PList [PStr ("MOTD=hello" ++ PyString.newline ++ "world")])])%list.

(** C1. Ensure Running is not idempotent for options that hold a newline:
    run twice with the same arguments, the second run on what the first
    left, the module finds the run command changed, recreates the running
    container and reports [changed = True] again. *)
Theorem second_run_recreates_on_newline :
  let first := run_module motd_params (boot fresh) in
  let second := run_module motd_params (forget_calls (snd first)) in
  fst first = ExitJson true ["Arguments changed for run command"; "Executed 'docker run'"]
  /\ fst second
     = ExitJson true ["Arguments changed for run command"; "Executed 'docker stop'";
                      "Executed 'docker rm'"; "Executed 'docker run'"]
  /\ map fst (calls (snd second))
     = [id_query "nginx"; running_query "web";
        ["docker"; "stop"; "web"]; ["docker"; "rm"; "web"];
        ["docker"; "run"; "--name"; "web"; "--env";
         "MOTD=hello" ++ PyString.newline ++ "world"; "-d"; "nginx"]].
Proof. vm_compute. repeat split. Qed.

(** Without the newline the second run is quiet. *)
Example second_run_is_quiet :
  let first := run_module (web_params "running") (boot fresh) in
  let second := run_module (web_params "running") (forget_calls (snd first)) in
  fst first = ExitJson true ["Arguments changed for run command"; "Executed 'docker run'"]
  /\ fst second = ExitJson false []
  /\ map fst (calls (snd second)) = [id_query "nginx"; running_query "web"].
Proof. vm_compute. repeat split. Qed.

(** *** The theorems at work *)

(** Options as ansible hands them over: lists, strings, numbers, and [None]
    for what was left out. *)
Definition some_options : dict :=
  [("network_alias", PList [PStr "db"; PStr "cache"]);
   ("cpu_shares", PInt 512);
   ("hostname", PNone);
   ("memory", PStr EmptyString);
   ("blkio_weight", PInt 0);
   ("publish", PList []);
   ("expose", PList [PInt 80; PInt 443]);
   ("read_only", PStr "true");
   ("tty", PBool true);
   ("oom_kill_disable", PBool false);
   ("name", PStr "web")].

Lemma construct_docker_command_serializes_witness :
  _construct_docker_command "run" some_options
  = ["docker"; "run"; "--network-alias"; "db"; "--network-alias"; "cache";
     "--cpu-shares"; "512"; "--expose"; "80"; "--expose"; "443";
     "--read-only"; "true"; "--tty"; "True"; "--name"; "web"].
Proof.
  eapply eq_trans; [apply construct_docker_command_serializes | vm_compute; reflexivity].
Defined.

Lemma reserved_tag_is_accepted_witness :
  exists c s',
    Container_init (reserved_tag_kwargs "foo") (boot fresh) = (Ok c, s')
    /\ image c = "foo:local"
    /\ is_local_image c = false
    /\ calls s' = calls (boot fresh).
Proof. apply (reserved_tag_is_accepted "foo" (boot fresh)). discriminate. Defined.

Definition stopped_without_image : dict :=
  [("state", PStr "stopped"); ("name", PStr "web"); ("image", PNone);
   ("path", PNone); ("command", PNone); ("build_args", PNone)].

Lemma stopped_without_image_fails_witness :
  run_module stopped_without_image (boot (with_web true))
  = (Uncaught TypeError, boot (with_web true)).
Proof.
  apply stopped_without_image_fails.
  - reflexivity.
  - exists (PStr "web"). reflexivity.
  - right. reflexivity.
Defined.

(** [web] on a host that has neither the container nor the image. *)
Definition nothing_there : State daemon :=
  {| self := web EmptyString EmptyString;
     sys := boot (with_images ∅ fresh) |}.

Lemma query_failure_means_absent_witness :
  fst (running nothing_there) = Ok None
  /\ fst (needs_pull nothing_there) = Ok true.
Proof.
  destruct (query_failure_means_absent nothing_there) as (Hrunning & Hpull & _).
  split.
  - apply (Hrunning EmptyString (with_images ∅ fresh)). vm_compute. reflexivity.
  - apply (Hpull EmptyString (with_images ∅ fresh)). vm_compute. reflexivity.
Defined.

(** A locally built container whose image is older than one file of its
    build context. *)
Definition app : Container :=
  {| changed := false;
     change_reason := [];
     name := "app";
     image := "app:local";
     path := Some "/srv/app";
     is_local_image := true;
     prev_commands_file := "/var/local/ansible/docker_simple/app";
     prev_build_command := "docker build --tag app:local --no-cache .";
     prev_run_command := "docker run --name app -d app:local";
     build_command := ["docker"; "build"; "--tag"; "app:local"; "--no-cache"; "."];
     run_command := ["docker"; "run"; "--name"; "app"; "-d"; "app:local"];
     build_command_str := "docker build --tag app:local --no-cache .";
     run_command_str := "docker run --name app -d app:local" |}.

(** The image of [app] was built at 09:40 and a bit: the file [app.ini],
    modified at 09:45, is newer. *)
Definition built_at_0940 : daemon :=
  with_images {[ "app:local" := "2018-03-01T09:40:00.517403692Z" ]} fresh.

Lemma needs_rebuild_scans_witness :
  exists stale,
    fst (needs_rebuild {| self := app; sys := boot built_at_0940 |}) = Ok stale
    /\ (stale = true <->
        exists p mtime,
          In p (walk_paths (os_walk "/srv/app" built_at_0940))
          /\ getmtime p built_at_0940 = Some mtime
          /\ 1519897200517403 < fromtimestamp mtime built_at_0940)
    /\ ((forall instant, fromtimestamp instant built_at_0940 = instant) ->
        stale = true <->
        exists p mtime,
          In p (walk_paths (os_walk "/srv/app" built_at_0940))
          /\ getmtime p built_at_0940 = Some mtime
          /\ 1519897200517403 < mtime).
Proof.
  destruct (needs_rebuild_scans {| self := app; sys := boot built_at_0940 |})
    as (_ & _ & _ & Hscan).
  apply (Hscan eq_refl ("2018-03-01T09:40:00.517403692Z" ++ PyString.newline)
               built_at_0940 1519897200517403 "/srv/app").
  - vm_compute. reflexivity.
  - vm_compute. reflexivity.
  - reflexivity.
  - vm_compute. repeat (apply List.Forall_cons; [by eexists|]). apply List.Forall_nil.
Defined.

(** An image created on the second: docker prints the creation time without
    a fraction, as it drops the zeros at its end. *)
Definition built_on_the_second : daemon :=
  with_images {[ "app:local" := "2018-03-01T09:40:00Z" ]} fresh.

(** A host five hours west of UTC.  The image was built at 10:00 UTC and a
    bit, and the Dockerfile was edited at 11:00 UTC, an hour later. *)
Definition west_of_utc : daemon :=
  with_utc_offset (-18000000000)
    (with_mtimes (<["/srv/app/Dockerfile" := 1519902000000000]> (mtimes fresh))
       (with_images {[ "app:local" := "2018-03-01T10:00:00.417403692Z" ]} fresh)).

(** C7. [needs_rebuild] does not decide whether a file was modified after
    the image was created.  For an image created on the second it does not
    answer at all: it raises the [ValueError] of [strptime], which nothing
    handles, where a file of the build context is newer than the image.  And
    on a host west of UTC it answers [False] though the Dockerfile was
    modified an hour after the image was created: the creation time is read
    as docker prints it, in UTC, and the modification time by the clock of
    the host. *)
Theorem needs_rebuild_misjudges :
  let on_the_second := {| self := app; sys := boot built_on_the_second |} in
  let west := {| self := app; sys := boot west_of_utc |} in
  (fst (needs_rebuild on_the_second) = Raise ValueError
   /\ fst (ensure_running on_the_second) = Raise ValueError
   /\ fst (exec_command (created_query "app:local") None built_on_the_second)
      = Exit0 ("2018-03-01T09:40:00Z" ++ PyString.newline)
   /\ Datetime.strptime "2018-03-01T09:40:00.000000" = Some 1519897200000000
   /\ In "/srv/app/conf/app.ini" (walk_paths (os_walk "/srv/app" built_on_the_second))
   /\ getmtime "/srv/app/conf/app.ini" built_on_the_second = Some 1519897500000000
   /\ 1519897200000000 < 1519897500000000)
  /\ (fst (needs_rebuild west) = Ok false
      /\ fst (exec_command (created_query "app:local") None west_of_utc)
         = Exit0 ("2018-03-01T10:00:00.417403692Z" ++ PyString.newline)
      /\ Datetime.strptime "2018-03-01T10:00:00.417403" = Some 1519898400417403
      /\ In "/srv/app/Dockerfile" (walk_paths (os_walk "/srv/app" west_of_utc))
      /\ getmtime "/srv/app/Dockerfile" west_of_utc = Some 1519902000000000
      /\ 1519898400417403 < 1519902000000000).
Proof.
  cbv zeta. repeat apply conj; vm_compute; try reflexivity.
  - right. right. by left.
  - by left.
Qed.

(** [web] running, with another run command on record. *)
Definition drifted : State daemon :=
  {| self := web "docker build --tag nginx --no-cache ."
                 "docker run --name web --publish 80:80 -d nginx";
     sys := boot (with_web true) |}.

Lemma ensure_running_follows_plan_witness :
  calls (sys (snd (ensure_running drifted)))
  = [(id_query "nginx", None); (running_query "web", None);
     (["docker"; "stop"; "web"], None); (["docker"; "rm"; "web"], None);
     (["docker"; "run"; "--name"; "web"; "-d"; "nginx"], None)].
Proof.
  eapply eq_trans.
  - apply (ensure_running_follows_plan
             drifted (snd (ensure_image_is_updated drifted))
             (snd (ensure_running drifted))
             (Exit0 (PyString.dquote ++ "true" ++ PyString.dquote ++ PyString.newline))
             (with_web true)).
    + vm_compute. reflexivity.
    + vm_compute. reflexivity.
    + vm_compute. reflexivity.
  - vm_compute. reflexivity.
Defined.

(** [web] running, with its own commands on record. *)
Definition settled : State daemon :=
  {| self := web "docker build --tag nginx --no-cache ."
                 "docker run --name web -d nginx";
     sys := boot (with_web true) |}.

Lemma ensure_restarted_skips_image_witness :
  calls (sys (snd (ensure_restarted settled)))
  = [(running_query "web", None); (["docker"; "restart"; "web"], None)]
  /\ changed (self (snd (ensure_restarted settled))) = true.
Proof.
  destruct (ensure_restarted_skips_image
              settled (snd (ensure_restarted settled)) (fst (ensure_restarted settled))
              ["--name"; "web"; "-d"; "nginx"] eq_refl)
    as [_ Hrestart].
  - vm_compute. reflexivity.
  - destruct (Hrestart
                (Exit0 (PyString.dquote ++ "true" ++ PyString.dquote ++ PyString.newline))
                (with_web true))
      as [Hcalls Hchanged].
    + vm_compute. reflexivity.
    + reflexivity.
    + reflexivity.
    + split; [exact Hcalls | apply Hchanged; vm_compute; reflexivity].
Defined.

Lemma stopped_overwrites_record_witness :
  let s := with_record old_record (boot (with_web true)) in
  files s !! record_path = Some old_record
  /\ files (snd (run_module (web_params "stopped") s)) !! record_path
     = Some ("docker build --tag nginx --no-cache ." ++ PyString.newline
               ++ "docker run --name web -d nginx").
Proof.
  split.
  - vm_compute. reflexivity.
  - apply (stopped_overwrites_record
             (web_params "stopped") web_kwargs
             (with_record old_record (boot (with_web true)))
             (with_record old_record (boot (with_web true)))
             (web "docker build --tag nginx --no-cache ."
                  "docker run --name web --publish 80:80 -d nginx")).
    + reflexivity.
    + vm_compute. reflexivity.
Defined.

Lemma second_run_is_quiet_on_one_line_witness :
  let first := run_module (web_params "running") (boot fresh) in
  run_module (web_params "running") (snd first)
  = (ExitJson false [],
     {| host := with_web true; files := files (snd first);
        calls := (calls (snd first)
                    ++ [(id_query "nginx", None); (running_query "web", None)])%list |}).
Proof.
  apply (second_run_is_quiet_on_one_line
           (web_params "running") web_kwargs (boot fresh)
           (with_record EmptyString (boot fresh))
           (snd (run_module (web_params "running") (boot fresh)))
           (web EmptyString EmptyString)
           true ["Arguments changed for run command"; "Executed 'docker run'"]
           (with_web true) (with_web true)
           (PyString.dquote ++ "true" ++ PyString.dquote ++ PyString.newline)).
  - reflexivity.
  - vm_compute. reflexivity.
  - reflexivity.
  - reflexivity.
  - vm_compute. reflexivity.
  - exists ("sha256:nginx" ++ PyString.newline). split; [vm_compute; reflexivity | discriminate].
  - vm_compute. reflexivity.
  - reflexivity.
Defined.

End Runs.

(** * Further properties *)

(** ** The command line that the builder writes *)

Lemma prefix_cons (a b : ascii) (s t : string) :
  String.prefix (String a s) (String b t)
  = if ascii_dec a b then String.prefix s t else false.
Proof. reflexivity. Qed.

Lemma contains_cons (needle : string) (c : ascii) (s : string) :
  PyString.contains needle (String c s)
  = String.prefix needle (String c s) || PyString.contains needle s.
Proof. reflexivity. Qed.

Lemma replace_leaves_none (s : string) :
  PyString.contains "_" (PyString.replace "_" "-" s) = false.
Proof.
  induction s as [|c s IH].
  - reflexivity.
  - change (PyString.replace "_" "-" (String c s))
      with (String (if Ascii.eqb c "_" then "-"%char else c)
                   (PyString.replace "_" "-" s)).
    rewrite contains_cons, IH, orb_false_r.
    change "_" with (String "_"%char EmptyString).
    rewrite prefix_cons.
    destruct (Ascii.eqb_spec c "_"%char) as [->|Hc].
    + by destruct (ascii_dec "_" "-").
    + destruct (ascii_dec "_" c) as [<-|_]; [done | reflexivity].
Qed.

(** The name of a flag starts with two hyphens and holds no underscore,
    whatever the key. *)
Theorem arg_name_has_no_underscore (key : string) :
  String.prefix "--" (arg_name_of key) = true
  /\ PyString.contains "_" (arg_name_of key) = false.
Proof.
  unfold arg_name_of. split.
  - change ("--" ++ PyString.replace "_" "-" key)
      with (String "-"%char (String "-"%char (PyString.replace "_" "-" key))).
    change "--" with (String "-"%char (String "-"%char EmptyString)).
    rewrite !prefix_cons.
    destruct (ascii_dec "-" "-"); [|done].
    by destruct (PyString.replace "_" "-" key).
  - change ("--" ++ PyString.replace "_" "-" key)
      with (String "-"%char (String "-"%char (PyString.replace "_" "-" key))).
    rewrite !contains_cons, replace_leaves_none.
    change "_" with (String "_"%char EmptyString).
    rewrite !prefix_cons.
    by destruct (ascii_dec "_" "-").
Qed.

Lemma falsy_option_gives_nothing (kv : string * pyval) :
  truthy (snd kv) = false -> option_flags kv = [].
Proof.
  destruct kv as [key value]. unfold option_flags. simpl.
  destruct value as [|b|z|s|items|d]; simpl; intros Hfalsy;
    rewrite ?Hfalsy; try done.
  by destruct items.
Qed.

(** Options whose value is falsy ([None], [False], [0], the empty string,
    an empty list or dictionary) leave no trace: the command is the one of
    the mapping without them. *)
Theorem falsy_options_are_dropped (command : string) (kwargs : dict) :
  _construct_docker_command command kwargs
  = _construct_docker_command command (List.filter (fun kv => truthy (snd kv)) kwargs).
Proof.
  unfold _construct_docker_command. rewrite !construct_docker_command_from.
  f_equal.
  induction kwargs as [|kv kwargs IH]; simpl; [done|].
  destruct (truthy (snd kv)) eqn:Htruthy; simpl.
  - by rewrite IH.
  - by rewrite (falsy_option_gives_nothing kv Htruthy).
Qed.

(** An entry with a truthy value that is not a list shows on the command
    line as its flag followed by the string of the value. *)
Lemma truthy_entry_shows (key : string) (value : pyval) (kwargs : dict) :
  In (key, value) kwargs ->
  truthy value = true ->
  (forall items, value <> PList items) ->
  exists before after,
    flat_map option_flags kwargs
    = (before ++ [arg_name_of key; py_str value] ++ after)%list.
Proof.
  intros Hin Htruthy Hscalar.
  apply in_split in Hin as (d1 & d2 & ->).
  exists (flat_map option_flags d1), (flat_map option_flags d2).
  rewrite flat_map_app. simpl. f_equal.
  unfold option_flags at 1, arg_name_of. simpl.
  destruct value as [|b|z|s|items|d]; simpl in *; rewrite ?Htruthy; try done.
  by destruct (Hscalar items).
Qed.

Lemma get_In (k : string) (v : pyval) (d : dict) :
  Dict.get k d = Some v -> In (k, v) d.
Proof.
  induction d as [|[k' v'] d IH]; simpl; [done|].
  destruct (String.eqb_spec k k') as [->|_].
  - intros Heq. inversion Heq. by left.
  - intros Hget. right. by apply IH.
Qed.

Lemma In_remove (k k' : string) (v : pyval) (d : dict) :
  k <> k' -> In (k, v) d -> In (k, v) (Dict.remove k' d).
Proof.
  intros Hne Hin. unfold Dict.remove. apply filter_In. split; [done|].
  simpl. apply negb_true_iff, String.eqb_neq. congruence.
Qed.

Lemma In_set_other (k k' : string) (v v' : pyval) (d : dict) :
  k <> k' -> In (k, v) d -> In (k, v) (Dict.set k' v' d).
Proof.
  intros Hne. induction d as [|[k0 v0] d IH]; simpl; [done|].
  destruct (String.eqb_spec k' k0) as [->|_]; intros [Heq|Hin].
  - inversion Heq; subst. done.
  - by right.
  - by left.
  - right. by apply IH.
Qed.

Lemma In_set_same (k : string) (v : pyval) (d : dict) :
  In (k, v) (Dict.set k v d).
Proof.
  induction d as [|[k0 v0] d IH]; simpl; [by left|].
  destruct (String.eqb_spec k k0) as [->|_]; [by left | by right].
Qed.

Lemma In_pop_default (k k' : string) (v default : pyval) (d : dict) :
  k <> k' -> In (k, v) d -> In (k, v) (snd (Dict.pop_default k' default d)).
Proof.
  intros Hne Hin. unfold Dict.pop_default, Dict.pop.
  destruct (Dict.get k' d); simpl; [by apply In_remove | done].
Qed.

Lemma set_not_empty (k : string) (v : pyval) (d : dict) : Dict.set k v d <> [].
Proof. destruct d as [|[k0 v0] d]; simpl; [done|]. by destruct (String.eqb k k0). Qed.

(** ** The container that the constructor returns *)

Section Constructed.

Context {H : Type} `{Host H}.

(** The content of the record file as [__init__] finds it: empty when the
    file has to be created. *)
Definition record_content (s : Sys H) (p : string) : string :=
  default EmptyString (files s !! p).

(** The steps of a constructor call that returned. *)
Lemma init_inversion (kwargs : dict) (s s' : Sys H) (c : Container) :
  Container_init kwargs s = (Ok c, s') ->
  exists image_v path_v kwargs1 kwargs2 kwargs3,
    Dict.get "name" kwargs = Some (PStr (name c))
    /\ Dict.pop_default "image" PNone kwargs = (image_v, kwargs1)
    /\ Dict.pop_default "path" PNone kwargs1 = (path_v, kwargs2)
    /\ local_or_remote image_v path_v = Ok (image c, is_local_image c)
    /\ _construct_docker_build_command (image c) kwargs2 = Ok (build_command c, kwargs3)
    /\ _construct_docker_run_command (image c) kwargs3 = Ok (map PStr (run_command c))
    /\ path c = match path_v with PStr p => Some p | _ => None end
    /\ prev_commands_file c = DOCKER_COMMANDS_PATH ++ "/" ++ name c
    /\ prev_build_command c
       = PyString.strip_newline
           (fst (PyString.readline (record_content s (prev_commands_file c))))
    /\ prev_run_command c
       = PyString.strip_newline
           (fst (PyString.readline
                   (snd (PyString.readline (record_content s (prev_commands_file c))))))
    /\ build_command_str c = PyString.join " " (build_command c)
    /\ run_command_str c = PyString.join " " (run_command c)
    /\ changed c = false
    /\ change_reason c = []
    /\ host s' = host s
    /\ calls s' = calls s
    /\ files s' = <[prev_commands_file c := record_content s (prev_commands_file c)]> (files s).
Proof.
  unfold Container_init, mbind, M_bind, lift, record_content.
  destruct (Dict.get "name" kwargs) as [name|]; [|discriminate].
  destruct (Dict.pop_default "image" PNone kwargs) as [image kwargs1] eqn:Himage.
  destruct (Dict.pop_default "path" PNone kwargs1) as [path kwargs2] eqn:Hpath.
  destruct (local_or_remote image path) as [[image' is_local]|] eqn:Hmode; [|discriminate].
  destruct name as [| | |name| |]; try discriminate.
  unfold open_commands_file.
  destruct (files s !! _) as [content|] eqn:Hfile;
    (destruct (PyString.readline _) as [line1 unread] eqn:Hline1;
     destruct (PyString.readline unread) as [line2 unread'] eqn:Hline2;
     destruct (_construct_docker_build_command image' kwargs2)
       as [[build_tokens kwargs3]|] eqn:Hbuild; [|discriminate];
     destruct (_construct_docker_run_command image' kwargs3)
       as [run_tokens|] eqn:Hrun; [|discriminate];
     destruct (as_strings run_tokens) as [run_strings|] eqn:Hstrings; [|discriminate];
     unfold mret, M_ret; intros Hinit; inversion Hinit; subst; clear Hinit; simpl;
     apply as_strings_Ok in Hstrings; subst run_tokens;
     exists image, path, kwargs1, kwargs2, kwargs3;
     rewrite Hfile; simpl).
  - rewrite Hline1. simpl. rewrite Hline2. simpl.
    repeat split; try done. by rewrite insert_id.
  - simpl in Hline1. inversion Hline1; subst.
    simpl in Hline2. inversion Hline2; subst.
    by repeat split.
Qed.

(** The image of the container against the image that was asked for: a
    local build appends the tag [:local] to a reference without colon, a
    pull keeps the reference. *)
Theorem init_image_of_mode (kwargs : dict) (s s' : Sys H) (c : Container) :
  Container_init kwargs s = (Ok c, s') ->
  if is_local_image c
  then exists stem,
      Dict.get "image" kwargs = Some (PStr stem)
      /\ PyString.contains ":" stem = false
      /\ image c = stem ++ ":local"
  else Dict.get "image" kwargs = Some (PStr (image c)).
Proof.
  intros Hinit.
  destruct (init_inversion _ _ _ _ Hinit)
    as (image_v & path_v & kwargs1 & kwargs2 & kwargs3 & _ & Himage & _ & Hmode & _).
  assert (Dict.get "image" kwargs = Some image_v \/ image_v = PNone) as Hgiven.
  { unfold Dict.pop_default, Dict.pop in Himage.
    destruct (Dict.get "image" kwargs); inversion Himage; subst; auto. }
  unfold local_or_remote in Hmode.
  destruct (truthy path_v);
    (destruct image_v as [| | |stem| |]; try discriminate;
     destruct Hgiven as [Hgiven|?]; [|discriminate]).
  - destruct (PyString.contains ":" stem) eqn:Hcolon; [discriminate|].
    injection Hmode as Himg Hlocal. rewrite <- Hlocal. by exists stem.
  - destruct (PyString.slice_to_neg 6 stem =? ":local")%string; [discriminate|].
    injection Hmode as Himg Hlocal. rewrite <- Hlocal. by rewrite <- Himg.
Qed.

Lemma map_PStr_inj (l1 l2 : list string) : map PStr l1 = map PStr l2 -> l1 = l2.
Proof.
  revert l2. induction l1 as [|x l1 IH]; intros [|y l2] Heq; try done.
  simpl in Heq. injection Heq as -> Hrest. by rewrite (IH l2).
Qed.

Lemma get_pop_default_other (k k' : string) (default : pyval) (d : dict) :
  k' <> k -> Dict.get k (snd (Dict.pop_default k' default d)) = Dict.get k d.
Proof.
  intros Hne. unfold Dict.pop_default, Dict.pop.
  destruct (Dict.get k' d); simpl; [by apply get_remove_ne | done].
Qed.

(** An entry of the mapping handed to [_construct_docker_run_command], other
    than [command], with a truthy value that is not a list, shows in the
    run command. *)
Lemma run_command_shows_entry (image key : string) (value : pyval) (kwargs : dict)
      (run_strings : list string) :
  _construct_docker_run_command image kwargs = Ok (map PStr run_strings) ->
  In (key, value) kwargs ->
  key <> "command" ->
  truthy value = true ->
  (forall items, value <> PList items) ->
  exists before after,
    run_strings = (before ++ [arg_name_of key; py_str value] ++ after)%list.
Proof.
  intros Hrun Hin Hkey Htruthy Hscalar.
  unfold _construct_docker_run_command, Dict.pop in Hrun.
  destruct (Dict.get "command" kwargs) as [command|]; [|discriminate].
  unfold _construct_docker_command in Hrun.
  rewrite construct_docker_command_from in Hrun.
  destruct (truthy_entry_shows key value (Dict.remove "command" kwargs))
    as (before & after & Hflags); [by apply In_remove | done | done |].
  rewrite Hflags in Hrun.
  exists ("docker" :: "run" :: before),
         (after ++ "-d" :: image
                :: (if truthy command then [py_str command] else []))%list.
  injection Hrun as Htokens.
  apply map_PStr_inj. rewrite <- Htokens.
  destruct (truthy command) eqn:Hcommand.
  - assert (exists s0, command = PStr s0) as [s0 ->].
    { assert (In command (map PStr run_strings)) as Hc.
      { rewrite <- Htokens. right. right. apply in_or_app. right. by left. }
      apply in_map_iff in Hc as (s0 & <- & _). by exists s0. }
    simpl. rewrite !map_app. simpl. rewrite !map_app. simpl.
    by rewrite <- !app_assoc.
  - simpl. rewrite !map_app. simpl. rewrite !map_app. simpl.
    by rewrite <- !app_assoc.
Qed.

(** The [name] argument is not popped: every container is run under its
    name. *)
Theorem run_command_names_the_container (kwargs : dict) (s s' : Sys H) (c : Container) :
  Container_init kwargs s = (Ok c, s') ->
  name c <> EmptyString ->
  exists before after,
    run_command c = (before ++ ["--name"; name c] ++ after)%list.
Proof.
  intros Hinit Hname.
  destruct (init_inversion _ _ _ _ Hinit)
    as (image_v & path_v & kwargs1 & kwargs2 & kwargs3
        & Hget & Himage & Hpath & _ & Hbuild & Hrun & _).
  apply (run_command_shows_entry (image c) "name" (PStr (name c)) kwargs3);
    try done; [| simpl; by apply negb_true_iff, String.eqb_neq].
  assert (In ("name", PStr (name c)) kwargs2) as Hin2.
  { replace kwargs2 with (snd (Dict.pop_default "path" PNone kwargs1))
      by (by rewrite Hpath).
    apply In_pop_default; [done|].
    replace kwargs1 with (snd (Dict.pop_default "image" PNone kwargs))
      by (by rewrite Himage).
    apply In_pop_default; [done|]. by apply get_In. }
  unfold _construct_docker_build_command in Hbuild.
  destruct (Dict.pop_default "build_args" (PDict []) kwargs2) as [build_args ?].
  destruct build_args; try discriminate;
    try (destruct (Dict.get "command" (Dict.set _ _ _)); [discriminate|]);
    inversion Hbuild; subst; [done|].
  destruct (Dict.get "build_args" kwargs2); [|done].
  by apply In_set_other.
Qed.

(** A [build_args] dictionary is not only used for the build command:
    [build_args['tag'] = image] writes into the object that the constructor
    still holds in [kwargs], so the run command gets a [--build-args] flag
    with the string of the dictionary, tag included. *)
Theorem build_args_reach_the_run_command
        (kwargs : dict) (s s' : Sys H) (c : Container) (d : dict) :
  Container_init kwargs s = (Ok c, s') ->
  Dict.get "build_args" kwargs = Some (PDict d) ->
  exists before after,
    run_command c
    = (before
         ++ ["--build-args"; py_str (PDict (Dict.set "tag" (PStr (image c)) d))]
         ++ after)%list.
Proof.
  intros Hinit Hargs.
  destruct (init_inversion _ _ _ _ Hinit)
    as (image_v & path_v & kwargs1 & kwargs2 & kwargs3
        & _ & Himage & Hpath & _ & Hbuild & Hrun & _).
  assert (Dict.get "build_args" kwargs2 = Some (PDict d)) as Hargs2.
  { replace kwargs2 with (snd (Dict.pop_default "path" PNone kwargs1))
      by (by rewrite Hpath).
    rewrite get_pop_default_other; [|done].
    replace kwargs1 with (snd (Dict.pop_default "image" PNone kwargs))
      by (by rewrite Himage).
    by rewrite get_pop_default_other. }
  apply (run_command_shows_entry
           (image c) "build_args" (PDict (Dict.set "tag" (PStr (image c)) d)) kwargs3);
    try done.
  - unfold _construct_docker_build_command, Dict.pop_default, Dict.pop in Hbuild.
    rewrite Hargs2 in Hbuild.
    destruct (Dict.get "command" (Dict.set _ _ _)); [discriminate|].
    injection Hbuild as _ <-.
    apply In_set_same.
  - simpl. pose proof (set_not_empty "tag" (PStr (image c)) d).
    by destruct (Dict.set "tag" (PStr (image c)) d).
Qed.

(** The build command tags the image under the reference the container is
    run from, whatever [tag] the build arguments held, and ends with
    [--no-cache] and the build context [.]. *)
Theorem build_command_tags_the_image (kwargs : dict) (s s' : Sys H) (c : Container) :
  Container_init kwargs s = (Ok c, s') ->
  image c <> EmptyString ->
  exists before after,
    build_command c
    = ("docker" :: "build" :: before ++ ["--tag"; image c] ++ after
         ++ ["--no-cache"; "."])%list.
Proof.
  intros Hinit Himg.
  destruct (init_inversion _ _ _ _ Hinit)
    as (image_v & path_v & kwargs1 & kwargs2 & kwargs3 & _ & _ & _ & _ & Hbuild & _).
  unfold _construct_docker_build_command in Hbuild.
  destruct (Dict.pop_default "build_args" (PDict []) kwargs2) as [build_args ?].
  assert (forall d,
             exists before after,
               (_construct_docker_command "build" (Dict.set "tag" (PStr (image c)) d)
                  ++ ["--no-cache"]) ++ ["."]
               = "docker" :: "build" :: before ++ ["--tag"; image c] ++ after
                   ++ ["--no-cache"; "."])%list as Hshape.
  { intros args. unfold _construct_docker_command.
    rewrite construct_docker_command_from.
    destruct (truthy_entry_shows "tag" (PStr (image c)) (Dict.set "tag" (PStr (image c)) args))
      as (before & after & ->);
      [apply In_set_same | simpl; by apply negb_true_iff, String.eqb_neq | done |].
    exists before, after. simpl. by rewrite <- !app_assoc. }
  destruct build_args; try discriminate;
    try (destruct (Dict.get "command" (Dict.set _ _ _)); [discriminate|]);
    injection Hbuild as <- _;
    [apply (Hshape []) | apply Hshape].
Qed.

Lemma image_key_present (params : dict) (v : pyval) :
  Dict.get "image" params = Some v ->
  negb (bool_decide (is_Some (Dict.get "image" (Dict.remove "state" params)))) = false.
Proof.
  intros Himage. rewrite bool_decide_eq_true_2; [done|].
  rewrite get_remove_ne by done. by rewrite Himage.
Qed.

(** A local build refuses an image reference that holds a colon: the module
    fails with the message of the exception, before it has opened a file or
    called the runtime. *)
Theorem local_image_with_tag_is_refused
        (params : dict) (s : Sys H) (state p : pyval) (img : string) :
  Dict.get "state" params = Some state ->
  is_Some (Dict.get "name" params) ->
  Dict.get "image" params = Some (PStr img) ->
  PyString.contains ":" img = true ->
  Dict.get "path" params = Some p ->
  truthy p = true ->
  run_module params s
  = (FailJson "Invalid argument: No tags are allowed when building a local image", s).
Proof.
  intros Hstate [name Hname] Himage Hcolon Hpath Htruthy.
  unfold run_module, Dict.pop. rewrite Hstate. cbv beta iota.
  rewrite (image_key_present params (PStr img) Himage), andb_false_r.
  unfold Container_init, mbind, M_bind, lift.
  rewrite get_remove_ne, Hname by done.
  unfold Dict.pop_default, Dict.pop.
  rewrite get_remove_ne, Himage by done. cbv beta iota.
  rewrite !get_remove_ne, Hpath by done. cbv beta iota.
  unfold local_or_remote. by rewrite Htruthy, Hcolon.
Qed.

(** The check for a missing image looks at the key, not at the value.  With
    the key missing and a state other than [stopped], the module fails with
    its own message; with the key present and [None] under it, as ansible
    passes an argument that was left out, the constructor raises a
    [TypeError] that nothing handles, whatever the state. *)
Theorem image_check_is_on_the_key (params : dict) (s : Sys H) (state : pyval) :
  Dict.get "state" params = Some state ->
  (Dict.get "image" params = None ->
   pyval_is_str state "stopped" = false ->
   run_module params s = (FailJson "Invalid argument: No image name provided", s))
  /\ (Dict.get "image" params = Some PNone ->
      is_Some (Dict.get "name" params) ->
      run_module params s = (Uncaught TypeError, s)).
Proof.
  intros Hstate. split.
  - intros Himage Hstopped.
    unfold run_module, Dict.pop. rewrite Hstate. cbv beta iota.
    rewrite Hstopped, bool_decide_eq_false_2; [done|].
    rewrite get_remove_ne, Himage by done. by intros [? ?].
  - intros Himage Hname.
    unfold run_module, Dict.pop. rewrite Hstate. cbv beta iota.
    rewrite (image_key_present params PNone Himage), andb_false_r.
    rewrite init_without_image; [done | |]; rewrite get_remove_ne by done;
      [done | by right].
Qed.

Lemma get_set_ne (k k' : string) (v : pyval) (d : dict) :
  k <> k' -> Dict.get k (Dict.set k' v d) = Dict.get k d.
Proof.
  intros Hne. induction d as [|[k0 v0] d IH]; simpl.
  - by destruct (String.eqb_spec k k').
  - destruct (String.eqb_spec k' k0) as [->|Hk0]; simpl.
    + by destruct (String.eqb_spec k k0).
    + by rewrite IH.
Qed.

Lemma local_or_remote_raises (img : string) (p : pyval) (e : exn) :
  local_or_remote (PStr img) p = Raise e ->
  exists msg, e = InvalidArgumentException msg.
Proof.
  unfold local_or_remote.
  destruct (truthy p);
    [destruct (PyString.contains ":" img) | destruct (String.eqb _ ":local")];
    intros Heq; inversion Heq; by eexists.
Qed.

(** The build arguments are handed to [_construct_docker_command] as
    keywords, next to its parameter [command]: a build argument of that name
    is a second value for the parameter.  The constructor, which has got
    past the checks on the image, raises a [TypeError] that nothing handles,
    and the module ends without a call to the runtime. *)
Theorem build_argument_named_command_is_fatal
        (params : dict) (s : Sys H) (state : pyval) (n img : string) (d : dict) :
  Dict.get "state" params = Some state ->
  Dict.get "name" params = Some (PStr n) ->
  Dict.get "image" params = Some (PStr img) ->
  (forall msg, local_or_remote (PStr img) (default PNone (Dict.get "path" params))
               <> Raise (InvalidArgumentException msg)) ->
  Dict.get "build_args" params = Some (PDict d) ->
  is_Some (Dict.get "command" d) ->
  fst (run_module params s) = Uncaught TypeError
  /\ calls (snd (run_module params s)) = calls s.
Proof.
  intros Hstate Hname Himage Hmode Hargs [v Hcommand].
  unfold run_module, Dict.pop. rewrite Hstate. cbv beta iota.
  rewrite (image_key_present params (PStr img) Himage), andb_false_r.
  unfold Container_init, mbind, M_bind, lift.
  rewrite get_remove_ne, Hname by done.
  unfold Dict.pop_default, Dict.pop.
  rewrite get_remove_ne, Himage by done. cbv beta iota.
  rewrite !get_remove_ne by done.
  assert (forall kwargs2 image',
             Dict.get "build_args" kwargs2 = Some (PDict d) ->
             _construct_docker_build_command image' kwargs2 = Raise TypeError)
    as Hbuild.
  { intros kwargs2 image' Hget.
    unfold _construct_docker_build_command, Dict.pop_default, Dict.pop.
    rewrite Hget. rewrite get_set_ne by done. by rewrite Hcommand. }
  destruct (Dict.get "path" params) as [p|] eqn:Hpath; simpl in Hmode;
    (destruct (local_or_remote (PStr img) _) as [[image' is_local]|e] eqn:Hlocal;
     [| destruct (local_or_remote_raises _ _ _ Hlocal) as [msg ->];
        by destruct (Hmode msg) ]);
    unfold open_commands_file;
    destruct (files s !! _) as [content|];
    repeat match goal with
      | |- context [PyString.readline ?x] => destruct (PyString.readline x)
      end;
    rewrite Hbuild; try done;
    by rewrite !get_remove_ne.
Qed.

End Constructed.

(** ** What the module reports *)

Section Reports.

Context {H : Type} `{Host H}.

#[local] Arguments PyString.slice_to : simpl never.

(** A call that acts on the runtime: anything but an [inspect]. *)
Definition is_action (c : call) : bool :=
  match fst c with
  | _ :: sub :: _ => negb (String.eqb sub "inspect")
  | _ => false
  end.

(** The commands of a container as [__init__] makes them. *)
Definition well_formed (c : Container) : Prop :=
  (exists rest, run_command c = "docker" :: "run" :: rest)
  /\ (exists rest, build_command c = "docker" :: "build" :: rest).

Lemma well_formed_same_spec (c c' : Container) :
  same_spec c c' -> well_formed c -> well_formed c'.
Proof.
  intros (_ & _ & _ & _ & _ & _ & _ & Hb & Hr & _) [Hrun Hbuild].
  unfold well_formed. by rewrite Hb, Hr.
Qed.

(** A method that only asks: it makes no acting call and leaves [changed]
    as it is, whether it returns or raises. *)
Definition quiet {A : Type} (m : M (State H) A) : Prop :=
  forall st r st',
    m st = (r, st') ->
    changed (self st') = changed (self st)
    /\ exists made,
        calls (sys st') = (calls (sys st) ++ made)%list
        /\ existsb is_action made = false.

Lemma quiet_pure {A : Type} (m : M (State H) A) :
  (forall st, exists r c,
      m st = (r, {| self := c; sys := sys st |}) /\ changed c = changed (self st)) ->
  quiet m.
Proof.
  intros Hm st r st' Heq. destruct (Hm st) as (r0 & c & Hrun & Hc).
  rewrite Hrun in Heq. inversion Heq; subst. simpl.
  split; [done|]. exists []. by rewrite app_nil_r.
Qed.

Lemma quiet_ret {A : Type} (a : A) : quiet (mret a).
Proof. apply quiet_pure. intros [c s]. by exists (Ok a), c. Qed.

Lemma quiet_raise {A : Type} (e : exn) : quiet (raise e : M (State H) A).
Proof. apply quiet_pure. intros [c s]. by exists (Raise e), c. Qed.

Lemma quiet_get_self : quiet get_self.
Proof. apply quiet_pure. intros [c s]. by exists (Ok c), c. Qed.

Lemma quiet_get_host : quiet get_host.
Proof. apply quiet_pure. intros [c s]. by exists (Ok (host s)), c. Qed.

Lemma quiet_add_reason (reason : string) : quiet (modify_self (add_reason reason)).
Proof. apply quiet_pure. intros [c s]. by exists (Ok tt), (add_reason reason c). Qed.

Lemma quiet_inspect (format x : string) :
  quiet (exec ["docker"; "inspect"; "--format"; format; x] None).
Proof.
  intros st r st'. rewrite exec_unfold.
  destruct (exec_command _ None (host (sys st))) as [[output|output|] h];
    intros Heq; inversion Heq; subst; simpl;
    (split; [done | by eexists]).
Qed.

Lemma quiet_bind {A B : Type} (m : M (State H) A) (f : A -> M (State H) B) :
  quiet m -> (forall a, quiet (f a)) -> quiet (m ≫= f).
Proof.
  intros Hm Hf st r st'. unfold mbind, M_bind.
  destruct (m st) as [[a|e] st1] eqn:Hrun; intros Heq.
  - destruct (Hm _ _ _ Hrun) as (Hc & made & Hcalls & Hq).
    destruct (Hf a _ _ _ Heq) as (Hc' & made' & Hcalls' & Hq').
    split; [congruence|]. exists (made ++ made')%list.
    rewrite Hcalls', Hcalls, existsb_app, Hq, Hq'. by rewrite <- app_assoc.
  - inversion Heq; subst. by apply (Hm _ _ _ Hrun).
Qed.

Lemma quiet_try {A : Type} (body handler : M (State H) A) :
  quiet body -> quiet handler -> quiet (try_except body handler).
Proof.
  intros Hb Hh st r st'. unfold try_except.
  destruct (body st) as [[a|e] st1] eqn:Hrun; intros Heq.
  - inversion Heq; subst. by apply (Hb _ _ _ Hrun).
  - destruct (Hb _ _ _ Hrun) as (Hc & made & Hcalls & Hq).
    destruct e; try (inversion Heq; subst; split; [done | by exists made]).
    destruct (Hh _ _ _ Heq) as (Hc' & made' & Hcalls' & Hq').
    split; [congruence|]. exists (made ++ made')%list.
    rewrite Hcalls', Hcalls, existsb_app, Hq, Hq'. by rewrite <- app_assoc.
Qed.

Create HintDb quiet.

Ltac quiet :=
  repeat first
    [ assumption | solve [auto with quiet nocore]
    | apply quiet_ret | apply quiet_raise | apply quiet_get_self
    | apply quiet_get_host | apply quiet_add_reason | apply quiet_inspect
    | apply quiet_try
    | apply quiet_bind; [| intros ?]
    | match goal with
      | |- quiet (if ?b then _ else _) => destruct b
      | |- quiet (match ?x with _ => _ end) => destruct x
      end ].

Lemma quiet_running : quiet running.
Proof. unfold running, running_query. quiet. Qed.
#[local] Hint Resolve quiet_running : quiet.

Lemma quiet_needs_pull : quiet needs_pull.
Proof. unfold needs_pull, id_query. quiet. Qed.
#[local] Hint Resolve quiet_needs_pull : quiet.

Lemma quiet_newer_in_files (t : Z) (root : string) (filenames : list string) :
  quiet (newer_in_files t root filenames).
Proof. induction filenames as [|filename rest IH]; simpl; quiet. Qed.
#[local] Hint Resolve quiet_newer_in_files : quiet.

Lemma quiet_newer_in_walk (t : Z) (walk : list (string * list string * list string)) :
  quiet (newer_in_walk t walk).
Proof. induction walk as [|[[root subdirs] filenames] rest IH]; simpl; quiet. Qed.
#[local] Hint Resolve quiet_newer_in_walk : quiet.

Lemma quiet_needs_rebuild : quiet needs_rebuild.
Proof. unfold needs_rebuild, created_query. quiet. Qed.
#[local] Hint Resolve quiet_needs_rebuild : quiet.

(** The three queries never act, and so does the whole image step when it
    finds nothing to do. *)
Definition tracks {A : Type} (m : M (State H) A) : Prop :=
  forall st r st',
    well_formed (self st) ->
    m st = (r, st') ->
    exists made,
      calls (sys st') = (calls (sys st) ++ made)%list
      /\ (changed (self st) = true -> changed (self st') = true)
      /\ (changed (self st') = true ->
          changed (self st) = true \/ existsb is_action made = true)
      /\ (forall a, r = Ok a -> existsb is_action made = true ->
                    changed (self st') = true).

Lemma tracks_quiet {A : Type} (m : M (State H) A) : quiet m -> tracks m.
Proof.
  intros Hq st r st' _ Hrun.
  destruct (Hq _ _ _ Hrun) as (Hc & made & Hcalls & Hmade).
  exists made. rewrite Hc, Hmade. repeat split; try done; auto.
Qed.

Lemma tracks_bind {A B : Type} (m : M (State H) A) (f : A -> M (State H) B) :
  tracks m -> frames m -> (forall a, tracks (f a)) -> tracks (m ≫= f).
Proof.
  intros Hm Hframe Hf st r st' Hwf. unfold mbind, M_bind.
  destruct (m st) as [[a|e] st1] eqn:Hrun; intros Heq.
  - destruct (Hm _ _ _ Hwf Hrun) as (made & Hcalls & Hmono & Hsound & Hcomplete).
    destruct (Hframe _ _ _ Hrun) as [_ Hspec].
    destruct (Hf a _ _ _ (well_formed_same_spec _ _ Hspec Hwf) Heq)
      as (made' & Hcalls' & Hmono' & Hsound' & Hcomplete').
    exists (made ++ made')%list.
    rewrite Hcalls', Hcalls, existsb_app, <- app_assoc.
    split; [done|]. split; [by auto|]. split.
    + intros Hc. destruct (Hsound' Hc) as [Hmid | ->]; [|right; apply orb_true_r].
      destruct (Hsound Hmid) as [? | ->]; [by left | by right].
    + intros b -> Hacted. apply orb_true_iff in Hacted as [Hacted|Hacted].
      * apply Hmono'. by apply (Hcomplete a).
      * by apply (Hcomplete' b).
  - inversion Heq; subst.
    destruct (Hm _ _ _ Hwf Hrun) as (made & Hcalls & Hmono & Hsound & _).
    exists made. split; [done|]. split; [done|]. split; [done|]. by intros.
Qed.

Lemma build_unfold (st : State H) :
  build st
  = match exec_command (build_command (self st)) (path (self st)) (host (sys st)) with
    | (Exit0 _, h) =>
        (Ok tt, acted "Executed 'docker build'" st h (build_command (self st))
                      (path (self st)))
    | (NonZero output, h) =>
        (Raise (CalledProcessError (build_command (self st)) output),
         logged st h (build_command (self st)) (path (self st)))
    | (CannotStart, h) =>
        (Raise OSError, logged st h (build_command (self st)) (path (self st)))
    end.
Proof.
  unfold build, mbind, M_bind, get_self, modify_self, mret, M_ret. simpl.
  rewrite exec_unfold.
  by destruct (exec_command _ _ (host (sys st))) as [[?|?|] ?].
Qed.

Lemma pull_unfold (st : State H) :
  pull st
  = match exec_command ["docker"; "pull"; image (self st)] None (host (sys st)) with
    | (Exit0 _, h) =>
        (Ok tt, acted "Executed 'docker pull'" st h ["docker"; "pull"; image (self st)] None)
    | (NonZero output, h) =>
        (Raise (CalledProcessError ["docker"; "pull"; image (self st)] output),
         logged st h ["docker"; "pull"; image (self st)] None)
    | (CannotStart, h) =>
        (Raise OSError, logged st h ["docker"; "pull"; image (self st)] None)
    end.
Proof.
  unfold pull, mbind, M_bind, get_self, modify_self, mret, M_ret. simpl.
  rewrite exec_unfold.
  by destruct (exec_command _ _ (host (sys st))) as [[?|?|] ?].
Qed.

(** One action: the call is made; [changed] is set if it went through and
    is left as it was if it did not. *)
Lemma tracks_one (m : M (State H) unit) (argv : Container -> list string)
      (cwd : Container -> option string) :
  (forall c, well_formed c -> is_action (argv c, cwd c) = true) ->
  (forall st,
      exists r st',
        m st = (r, st')
        /\ calls (sys st') = (calls (sys st) ++ [(argv (self st), cwd (self st))])%list
        /\ match r with
           | Ok _ => changed (self st') = true
           | Raise _ => changed (self st') = changed (self st)
           end) ->
  tracks m.
Proof.
  intros Hact Hm st r st' Hwf Hrun.
  destruct (Hm st) as (r0 & st0 & Hrun0 & Hcalls & Hchanged).
  rewrite Hrun0 in Hrun. inversion Hrun; subst. clear Hrun.
  exists [(argv (self st), cwd (self st))]. simpl.
  rewrite (Hact _ Hwf). simpl.
  split; [done|]. destruct r as [[]|e].
  - split; [done|]. split; [by right | done].
  - rewrite Hchanged. split; [done|]. split; [by left | done].
Qed.

Ltac one_action :=
  unfold named_action;
  match goal with
  | |- context [exec_command ?argv ?cwd ?h] =>
      destruct (exec_command argv cwd h) as [[? | ? |] ?]
  end; by eexists _, _.

Lemma tracks_run : tracks run.
Proof.
  apply (tracks_one run run_command (fun _ => None)).
  - intros c [[rest Hrun] _]. unfold is_action. simpl. by rewrite Hrun.
  - intros st. rewrite run_unfold. one_action.
Qed.

Lemma tracks_build : tracks build.
Proof.
  apply (tracks_one build build_command path).
  - intros c [_ [rest Hbuild]]. unfold is_action. simpl. by rewrite Hbuild.
  - intros st. rewrite build_unfold. one_action.
Qed.

Lemma tracks_pull : tracks pull.
Proof.
  apply (tracks_one pull (fun c => ["docker"; "pull"; image c]) (fun _ => None)).
  - done.
  - intros st. rewrite pull_unfold. one_action.
Qed.

Lemma tracks_named (verb reason : string) :
  String.eqb verb "inspect" = false ->
  tracks (named_action verb reason).
Proof.
  intros Hverb.
  apply (tracks_one _ (fun c => ["docker"; verb; name c]) (fun _ => None)).
  - intros c _. unfold is_action. simpl. by rewrite Hverb.
  - intros st. one_action.
Qed.

Lemma tracks_ext {A : Type} (m m' : M (State H) A) :
  (forall st, m st = m' st) -> tracks m' -> tracks m.
Proof. intros Hext Hm st r st' Hwf Hrun. rewrite Hext in Hrun. by apply (Hm st). Qed.

Lemma tracks_start : tracks start.
Proof. eapply tracks_ext; [apply start_unfold | by apply tracks_named]. Qed.

Lemma tracks_stop : tracks stop.
Proof. eapply tracks_ext; [apply stop_unfold | by apply tracks_named]. Qed.

Lemma tracks_remove : tracks remove.
Proof. eapply tracks_ext; [apply remove_unfold | by apply tracks_named]. Qed.

Create HintDb tracks.
#[local] Hint Resolve tracks_run tracks_build tracks_pull tracks_start tracks_stop
  tracks_remove : tracks.
#[local] Hint Resolve frames_running frames_needs_pull frames_needs_rebuild frames_run
  frames_start frames_stop frames_remove frames_build frames_pull frames_restart
  frames_ensure_image_is_updated frames_ret frames_get_self frames_add_reason : tracks.

Lemma frames_if {A : Type} (b : bool) (m1 m2 : M (State H) A) :
  frames m1 -> frames m2 -> frames (if b then m1 else m2).
Proof. by destruct b. Qed.

Ltac tracks :=
  repeat first
    [ assumption | solve [auto with tracks nocore]
    | apply tracks_quiet; solve [quiet]
    | apply tracks_bind; [| solve [auto using frames_if with tracks nocore] | intros ?]
    | match goal with
      | |- tracks (if ?b then _ else _) => destruct b
      | |- tracks (match ?x with _ => _ end) => destruct x
      end ].

Lemma tracks_restart : tracks restart.
Proof.
  assert (tracks (stop;; remove;; run)) as Hrecreate by tracks.
  intros st r st' Hwf Hrun. rewrite restart_unfold in Hrun.
  destruct (changed (self st)) eqn:Hc.
  - pose proof (Hrecreate _ _ _ Hwf Hrun) as Hres. by rewrite Hc in Hres.
  - pose proof (tracks_named "restart" "Executed 'docker restart'" eq_refl _ _ _ Hwf Hrun)
      as Hres.
    by rewrite Hc in Hres.
Qed.
#[local] Hint Resolve tracks_restart : tracks.

Lemma tracks_ensure_image_is_updated : tracks ensure_image_is_updated.
Proof. unfold ensure_image_is_updated. tracks. Qed.
#[local] Hint Resolve tracks_ensure_image_is_updated : tracks.

Lemma tracks_ensure_running : tracks ensure_running.
Proof. unfold ensure_running. tracks. Qed.

Lemma tracks_ensure_stopped : tracks ensure_stopped.
Proof. unfold ensure_stopped. tracks. Qed.

Lemma tracks_ensure_restarted : tracks ensure_restarted.
Proof. unfold ensure_restarted. tracks. Qed.

Lemma tracks_dispatch (state : pyval) : tracks (dispatch state).
Proof.
  unfold dispatch.
  repeat match goal with
         | |- tracks (if ?b then _ else _) => destruct b
         end;
    first [ apply tracks_ensure_running | apply tracks_ensure_restarted
          | apply tracks_ensure_stopped | apply tracks_quiet, quiet_ret ].
Qed.

(** The flag [changed] tells whether the reconciliation acted.  For a
    container as the constructor returns it, when the reconciliation returns
    normally, [changed] is set exactly if one of the calls it made was not an
    [inspect]. *)
Theorem changed_iff_acted (state : pyval) (st st' : State H) :
  well_formed (self st) ->
  changed (self st) = false ->
  dispatch state st = (Ok tt, st') ->
  exists made,
    calls (sys st') = (calls (sys st) ++ made)%list
    /\ (changed (self st') = true <-> existsb is_action made = true).
Proof.
  intros Hwf Hfresh Hrun.
  destruct (tracks_dispatch state _ _ _ Hwf Hrun) as (made & Hcalls & _ & Hsound & Hcomplete).
  exists made. split; [done|]. split.
  - intros Hc. destruct (Hsound Hc) as [Habs|?]; [congruence | done].
  - by apply (Hcomplete tt).
Qed.

(** ... and a reconciliation never takes [changed] back. *)
Theorem changed_is_never_reset (state : pyval) (st st' : State H) (r : result unit) :
  well_formed (self st) ->
  changed (self st) = true ->
  dispatch state st = (r, st') ->
  changed (self st') = true.
Proof.
  intros Hwf Hc Hrun.
  destruct (tracks_dispatch state _ _ _ Hwf Hrun) as (made & _ & Hmono & _).
  by apply Hmono.
Qed.

End Reports.

(** ** Stopped and restarted *)

Section OtherStates.

Context {H : Type} `{Host H}.

Ltac act :=
  repeat (rewrite ?run_unfold, ?stop_unfold, ?remove_unfold, ?start_unfold;
          unfold named_action; simpl;
          match goal with
          | |- context [exec_command ?argv ?cwd ?h] =>
              destruct (exec_command argv cwd h) as [[? | ? |] ?]
          end; simpl).

(** Ensure Stopped asks whether the container runs and stops it if it does;
    it makes no other call.  A container that does not run, or does not
    exist, is left with [changed] and the trail untouched.  (When the
    client cannot be started, the [OSError] of the query is all there is.) *)
Theorem ensure_stopped_only_stops (st st' : State H) (res : result unit)
        (r : completed) (h : H) :
  exec_command (running_query (name (self st))) None (host (sys st)) = (r, h) ->
  ensure_stopped st = (res, st') ->
  if probe r is Some true
  then calls (sys st')
       = (calls (sys st)
            ++ [(running_query (name (self st)), None);
                (["docker"; "stop"; name (self st)], None)])%list
       /\ (res = Ok tt -> changed (self st') = true)
  else res = (if r is CannotStart then Raise OSError else Ok tt)
       /\ st' = logged st h (running_query (name (self st))) None.
Proof.
  intros Hquery. unfold ensure_stopped.
  unfold mbind at 1, M_bind at 1. rewrite running_unfold, Hquery.
  destruct r as [output|output|]; simpl;
    [destruct (PyString.contains "true" output); simpl| |].
  - act; intros Hrun; inversion Hrun; subst; simpl;
      (split; [by rewrite <- app_assoc | done]).
  - intros Hrun. by inversion Hrun.
  - intros Hrun. by inversion Hrun.
  - intros Hrun. by inversion Hrun.
Qed.

(** What Ensure Restarted does after its query, in the words of the module:
    a running container is restarted, or recreated when [changed] is already
    set; a missing container is run; a stopped container is started, or
    removed and run when [changed] is already set. *)
Definition restarted_plan (c : Container) (runs : option bool) : list (list string) :=
  match runs with
  | Some true =>
      if changed c
      then [["docker"; "stop"; name c]; ["docker"; "rm"; name c]; run_command c]
      else [["docker"; "restart"; name c]]
  | None => [run_command c]
  | Some false =>
      if changed c
      then [["docker"; "rm"; name c]; run_command c]
      else [["docker"; "start"; name c]]
  end.

(** Ensure Restarted always acts: when it returns, it has made the calls of
    its plan, never fewer, and [changed] is set. *)
Theorem ensure_restarted_always_acts (st st' : State H) (r : completed) (h : H) :
  exec_command (running_query (name (self st))) None (host (sys st)) = (r, h) ->
  ensure_restarted st = (Ok tt, st') ->
  calls (sys st')
  = (calls (sys st)
       ++ (running_query (name (self st)), None)
       :: map (fun argv => (argv, None)) (restarted_plan (self st) (probe r)))%list
  /\ changed (self st') = true.
Proof.
  intros Hquery. unfold ensure_restarted.
  unfold mbind at 1, M_bind at 1. rewrite running_unfold, Hquery.
  unfold restarted_plan.
  destruct r as [output|output|]; simpl;
    [destruct (PyString.contains "true" output); simpl| |discriminate];
    rewrite ?restart_unfold; simpl;
    unfold mbind, M_bind, get_self; simpl;
    try destruct (changed (self st)); simpl;
    act; intros Hrun; inversion Hrun; subst; simpl;
    (split; [by rewrite <- ?app_assoc | done]).
Qed.

End OtherStates.

(** ** Drift, the trail and the record *)

Section Outcomes.

Context {H : Type} `{Host H}.

#[local] Arguments PyString.slice_to : simpl never.

Lemma run_sets_changed (st st' : State H) :
  run st = (Ok tt, st') -> changed (self st') = true.
Proof.
  rewrite run_unfold.
  destruct (exec_command _ None (host (sys st))) as [[?|?|] ?];
    intros Heq; by inversion Heq.
Qed.

Lemma named_action_sets_changed (verb reason : string) (st st' : State H) :
  named_action verb reason st = (Ok tt, st') -> changed (self st') = true.
Proof.
  unfold named_action.
  destruct (exec_command _ None (host (sys st))) as [[?|?|] ?];
    intros Heq; by inversion Heq.
Qed.

Lemma start_sets_changed (st st' : State H) :
  start st = (Ok tt, st') -> changed (self st') = true.
Proof. rewrite start_unfold. apply named_action_sets_changed. Qed.

Lemma stop_sets_changed (st st' : State H) :
  stop st = (Ok tt, st') -> changed (self st') = true.
Proof. rewrite stop_unfold. apply named_action_sets_changed. Qed.

Lemma build_sets_changed (st st' : State H) :
  build st = (Ok tt, st') -> changed (self st') = true.
Proof.
  rewrite build_unfold.
  destruct (exec_command _ _ (host (sys st))) as [[?|?|] ?];
    intros Heq; by inversion Heq.
Qed.

Lemma pull_sets_changed (st st' : State H) :
  pull st = (Ok tt, st') -> changed (self st') = true.
Proof.
  rewrite pull_unfold.
  destruct (exec_command _ _ (host (sys st))) as [[?|?|] ?];
    intros Heq; by inversion Heq.
Qed.

Lemma running_leaves_self (st st' : State H) (runs : result (option bool)) :
  running st = (runs, st') -> self st' = self st.
Proof.
  rewrite running_unfold.
  destruct (exec_command _ None (host (sys st))) as [r h].
  intros Heq. by inversion Heq.
Qed.

Lemma drifted_same_spec (c c' : Container) :
  same_spec c c' -> run_command_drifted c' = run_command_drifted c.
Proof.
  intros (_ & _ & _ & _ & _ & _ & Hprev & _ & _ & _ & Hstr).
  unfold run_command_drifted. by rewrite Hprev, Hstr.
Qed.

(** The tail of [ensure_running], from the probe on. *)
Definition after_probe (runs : option bool) : M (State H) unit :=
  match runs with
  | Some true =>
      c ← get_self;
      if changed c || run_command_drifted c
      then stop;; remove;; run
      else mret tt
  | None => run
  | Some false =>
      c ← get_self;
      if changed c || run_command_drifted c
      then remove;; run
      else start
  end.

Lemma after_probe_recreates (runs : option bool) (st st' : State H) :
  changed (self st) || run_command_drifted (self st) = true ->
  after_probe runs st = (Ok tt, st') ->
  changed (self st') = true.
Proof.
  intros Hrecreate. unfold after_probe.
  destruct runs as [[|]|].
  - unfold mbind at 1, M_bind at 1, get_self at 1. rewrite Hrecreate.
    intros Hrun.
    apply bind_Ok in Hrun as (? & st1 & _ & Hrun).
    apply bind_Ok in Hrun as (? & st2 & _ & Hrun).
    by apply run_sets_changed in Hrun.
  - unfold mbind at 1, M_bind at 1, get_self at 1. rewrite Hrecreate.
    intros Hrun.
    apply bind_Ok in Hrun as (? & st1 & _ & Hrun).
    by apply run_sets_changed in Hrun.
  - apply run_sets_changed.
Qed.

Lemma after_probe_settled (runs : option bool) (st st' : State H) :
  changed (self st) || run_command_drifted (self st) = false ->
  after_probe runs st = (Ok tt, st') ->
  changed (self st') = false ->
  runs = Some true /\ st' = st.
Proof.
  intros Hsettled. unfold after_probe.
  destruct runs as [[|]|].
  - unfold mbind at 1, M_bind at 1, get_self at 1. rewrite Hsettled.
    intros Hrun _. by inversion Hrun.
  - unfold mbind at 1, M_bind at 1, get_self at 1. rewrite Hsettled.
    intros Hrun Hc. apply start_sets_changed in Hrun. congruence.
  - intros Hrun Hc. apply run_sets_changed in Hrun. congruence.
Qed.

(** [ensure_running] in three steps: the image step, the note on drift, and
    the probe with what follows it. *)
Lemma ensure_running_steps (st st' : State H) :
  ensure_running st = (Ok tt, st') ->
  exists st1 st3 runs,
    ensure_image_is_updated st = (Ok tt, st1)
    /\ running
         (if run_command_drifted (self st1)
          then with_self (add_reason "Arguments changed for run command") st1
          else st1)
       = (Ok runs, st3)
    /\ after_probe runs st3 = (Ok tt, st').
Proof.
  unfold ensure_running. intros Hrun.
  apply bind_Ok in Hrun as ([] & st1 & Himage & Hrun).
  apply bind_Ok in Hrun as (c & st1' & Hget & Hrun).
  unfold get_self in Hget. injection Hget as <- <-.
  apply bind_Ok in Hrun as ([] & st2 & Hnote & Hrun).
  apply bind_Ok in Hrun as (runs & st3 & Hprobe & Hrun).
  exists st1, st3, runs. split; [done|]. split; [|done].
  destruct (run_command_drifted (self st1)); inversion Hnote; by subst.
Qed.

Lemma ensure_running_acts_on_drift (st st' : State H) :
  run_command_drifted (self st) = true ->
  ensure_running st = (Ok tt, st') ->
  changed (self st') = true.
Proof.
  intros Hdrift Hrun.
  destruct (ensure_running_steps _ _ Hrun) as (st1 & st3 & runs & Himage & Hprobe & Hafter).
  apply frames_ensure_image_is_updated in Himage as [_ Hspec].
  apply drifted_same_spec in Hspec. rewrite Hdrift in Hspec.
  rewrite Hspec in Hprobe. apply running_leaves_self in Hprobe.
  apply (after_probe_recreates runs st3); [|done].
  rewrite Hprobe. unfold run_command_drifted in *. simpl.
  rewrite Hspec. apply orb_true_r.
Qed.

(** Drift always leads to a change: if the run command differs from the
    recorded one and Ensure Running returns, it has run the container anew
    and [changed] is set, whether the container was running, stopped or
    missing. *)
Theorem drift_forces_change (st st' : State H) :
  run_command_drifted (self st) = true ->
  ensure_running st = (Ok tt, st') ->
  changed (self st') = true.
Proof. apply ensure_running_acts_on_drift. Qed.

(** *** A run that changes nothing *)

Lemma newer_in_files_false (t : Z) (root : string) (filenames : list string)
      (st st' : State H) :
  newer_in_files t root filenames st = (Ok false, st') -> st' = st.
Proof.
  induction filenames as [|filename rest IH]; simpl.
  - intros Heq. by inversion Heq.
  - unfold mbind at 1, M_bind at 1, get_host at 1.
    destruct (getmtime _ (host (sys st))) as [mtime|]; [|discriminate].
    destruct (t <? _); [|done].
    intros Heq. by inversion Heq.
Qed.

Lemma newer_in_walk_false (t : Z) (walk : list (string * list string * list string))
      (st st' : State H) :
  newer_in_walk t walk st = (Ok false, st') -> st' = st.
Proof.
  induction walk as [|[[root subdirs] filenames] rest IH]; simpl.
  - intros Heq. by inversion Heq.
  - intros Hrun. apply bind_Ok in Hrun as (found & st1 & Hfiles & Hrun).
    destruct found; [by inversion Hrun|].
    apply newer_in_files_false in Hfiles as ->. by apply IH.
Qed.

Lemma needs_rebuild_false (st st' : State H) :
  needs_rebuild st = (Ok false, st') -> self st' = self st.
Proof.
  unfold needs_rebuild, mbind, M_bind, get_self, try_except, mret, M_ret, modify_self.
  destruct (negb _); [discriminate|].
  rewrite exec_unfold.
  destruct (exec_command _ None (host (sys st))) as [[output|output|] h]; simpl;
    [|discriminate..].
  destruct (Datetime.strptime _) as [t|]; [|discriminate].
  destruct (path (self st)) as [top|]; [|discriminate].
  unfold get_host. simpl.
  intros Hwalk. by apply newer_in_walk_false in Hwalk as ->.
Qed.

Lemma needs_pull_false (st st' : State H) :
  needs_pull st = (Ok false, st') -> self st' = self st.
Proof.
  rewrite needs_pull_unfold.
  destruct (exec_command _ None (host (sys st))) as [[output|output|] h];
    intros Heq; by inversion Heq.
Qed.

Lemma image_step_unchanged (st st' : State H) :
  ensure_image_is_updated st = (Ok tt, st') ->
  changed (self st') = false ->
  self st' = self st.
Proof.
  unfold ensure_image_is_updated.
  unfold mbind at 1, M_bind at 1, get_self at 1.
  destruct (is_local_image (self st)); intros Hrun Hc;
    apply bind_Ok in Hrun as ([|] & st1 & Hquery & Hrun).
  - apply build_sets_changed in Hrun. congruence.
  - inversion Hrun; subst. by apply needs_rebuild_false.
  - apply pull_sets_changed in Hrun. congruence.
  - inversion Hrun; subst. by apply needs_pull_false.
Qed.

Lemma ensure_running_unchanged (st st' : State H) :
  ensure_running st = (Ok tt, st') ->
  changed (self st') = false ->
  self st' = self st.
Proof.
  intros Hrun Hc.
  destruct (ensure_running_steps _ _ Hrun) as (st1 & st3 & runs & Himage & Hprobe & Hafter).
  pose proof (running_leaves_self _ _ _ Hprobe) as Hself3.
  destruct (changed (self st3) || run_command_drifted (self st3)) eqn:Hrecreate.
  { pose proof (after_probe_recreates _ _ _ Hrecreate Hafter). congruence. }
  destruct (after_probe_settled _ _ _ Hrecreate Hafter Hc) as [_ ->].
  apply orb_false_iff in Hrecreate as [Hc3 Hd3].
  destruct (run_command_drifted (self st1)) eqn:Hd1.
  - rewrite Hself3 in Hd3. unfold run_command_drifted in Hd1, Hd3. simpl in Hd3. congruence.
  - rewrite Hself3. apply (image_step_unchanged _ _ Himage). congruence.
Qed.

Lemma restart_sets_changed (st st' : State H) :
  restart st = (Ok tt, st') -> changed (self st') = true.
Proof.
  rewrite restart_unfold. destruct (changed (self st)).
  - intros Hrun.
    apply bind_Ok in Hrun as (? & st1 & _ & Hrun).
    apply bind_Ok in Hrun as (? & st2 & _ & Hrun).
    by apply run_sets_changed in Hrun.
  - apply named_action_sets_changed.
Qed.

Lemma ensure_restarted_sets_changed (st st' : State H) :
  ensure_restarted st = (Ok tt, st') -> changed (self st') = true.
Proof.
  unfold ensure_restarted. intros Hrun.
  apply bind_Ok in Hrun as ([[|]|] & st1 & _ & Hrun).
  - by apply restart_sets_changed in Hrun.
  - unfold mbind at 1, M_bind at 1, get_self at 1 in Hrun.
    destruct (changed (self st1)).
    + apply bind_Ok in Hrun as (? & st2 & _ & Hrun).
      by apply run_sets_changed in Hrun.
    + by apply start_sets_changed in Hrun.
  - by apply run_sets_changed in Hrun.
Qed.

Lemma ensure_stopped_unchanged (st st' : State H) :
  ensure_stopped st = (Ok tt, st') ->
  changed (self st') = false ->
  self st' = self st.
Proof.
  unfold ensure_stopped. intros Hrun Hc.
  apply bind_Ok in Hrun as (runs & st1 & Hprobe & Hrun).
  apply running_leaves_self in Hprobe.
  destruct runs as [[|]|]; try (inversion Hrun; by subst).
  apply stop_sets_changed in Hrun. congruence.
Qed.

(** A reconciliation that returns with [changed] unset has left [self] as
    it found it: nothing was added to the trail. *)
Lemma dispatch_unchanged (state : pyval) (st st' : State H) :
  dispatch state st = (Ok tt, st') ->
  changed (self st') = false ->
  self st' = self st.
Proof.
  unfold dispatch.
  destruct (pyval_is_str state "running"); [apply ensure_running_unchanged|].
  destruct (pyval_is_str state "restarted").
  { intros Hrun Hc. apply ensure_restarted_sets_changed in Hrun. congruence. }
  destruct (pyval_is_str state "stopped"); [apply ensure_stopped_unchanged|].
  intros Hrun _. by inversion Hrun.
Qed.

(** *** The module as a whole *)

Lemma init_facts (kwargs : dict) (s s0 : Sys H) (c : Container) :
  Container_init kwargs s = (Ok c, s0) ->
  calls s0 = calls s
  /\ host s0 = host s
  /\ change_reason c = []
  /\ is_Some (Dict.get "name" kwargs)
  /\ run_command_str c = PyString.join " " (run_command c)
  /\ prev_run_command c
     = PyString.strip_newline
         (fst (PyString.readline
                 (snd (PyString.readline (record_content s (prev_commands_file c)))))).
Proof.
  intros Hinit.
  destruct (init_inversion _ _ _ _ Hinit)
    as (? & ? & ? & ? & ? & Hname & _ & _ & _ & _ & _ & _ & _ & _ & Hprev & _ & Hstr
        & _ & Htrail & Hhost & Hcalls & _).
  by rewrite Hname.
Qed.

(** A run of the module that ended in [exit_json], step by step. *)
Lemma run_module_exit (params : dict) (s s1 : Sys H) (ch : bool) (reasons : list string) :
  run_module params s = (ExitJson ch reasons, s1) ->
  exists state kwargs c s0 st,
    Dict.pop "state" params = Some (state, kwargs)
    /\ Container_init kwargs s = (Ok c, s0)
    /\ dispatch state {| self := c; sys := s0 |} = (Ok tt, st)
    /\ ch = changed (self st)
    /\ reasons = change_reason (self st)
    /\ calls s1 = calls (sys st)
    /\ host s1 = host (sys st)
    /\ files s1 = <[prev_commands_file c := record_of c]> (files s0).
Proof.
  unfold run_module.
  destruct (Dict.pop "state" params) as [[state kwargs]|]; [|discriminate].
  destruct (negb (pyval_is_str state "stopped") && _); [discriminate|].
  destruct (Container_init kwargs s) as [[c|e] s0] eqn:Hinit;
    [|destruct e; discriminate].
  destruct (dispatch state {| self := c; sys := s0 |}) as [r st] eqn:Hrun.
  pose proof (frames_dispatch state _ _ _ Hrun) as [Hfiles Hspec]. simpl in *.
  destruct Hspec as (_ & _ & _ & _ & Hf & _ & _ & Hbc & Hrc & Hbs & Hrs).
  unfold Container_del.
  rewrite Hbc, Hrc, (del_always_writes _ _ _ _ Hinit), Hf, Hbs, Hrs, Hfiles.
  destruct r as [[]|e]; [|destruct e; discriminate].
  intros Heq. inversion Heq; subst. clear Heq. simpl.
  by exists state, kwargs, c, s0, st.
Qed.

(** The module reports [changed] exactly when it acted: if it ends in
    [exit_json], [changed] is true if and only if one of the calls it made
    to the runtime was not an [inspect]. *)
Theorem module_reports_change_iff_acted
        (params : dict) (s s1 : Sys H) (ch : bool) (reasons : list string) :
  run_module params s = (ExitJson ch reasons, s1) ->
  exists made,
    calls s1 = (calls s ++ made)%list
    /\ (ch = true <-> existsb is_action made = true).
Proof.
  intros Hexit.
  destruct (run_module_exit _ _ _ _ _ Hexit)
    as (state & kwargs & c & s0 & st & _ & Hinit & Hrun & -> & _ & Hcalls & _).
  destruct (init_commands _ _ _ _ Hinit) as (Hfresh & Hbuild & Hruncmd).
  destruct (init_facts _ _ _ _ Hinit) as (Hcalls0 & _).
  assert (well_formed (self {| self := c; sys := s0 |})) as Hwf by (by split).
  destruct (tracks_dispatch state _ _ _ Hwf Hrun)
    as (made & Hmade & _ & Hsound & Hcomplete).
  simpl in *. exists made. rewrite Hcalls, Hmade, Hcalls0. split; [done|]. split.
  - intros Hc. destruct (Hsound Hc) as [Habs|?]; [congruence | done].
  - by apply (Hcomplete tt).
Qed.

(** When the module reports no change, the trail of reasons is empty. *)
Theorem unchanged_run_has_empty_trail
        (params : dict) (s s1 : Sys H) (reasons : list string) :
  run_module params s = (ExitJson false reasons, s1) ->
  reasons = [].
Proof.
  intros Hexit.
  destruct (run_module_exit _ _ _ _ _ Hexit)
    as (state & kwargs & c & s0 & st & _ & Hinit & Hrun & Hc & -> & _).
  rewrite (dispatch_unchanged _ _ _ Hrun) by done. simpl.
  by destruct (init_facts _ _ _ _ Hinit) as (_ & _ & Htrail & _).
Qed.

(** The first time a name is used there is no record of it, so the run
    command counts as changed: with [state = running] the module acts, and
    when it ends in [exit_json] it reports [changed = True]. *)
Theorem first_run_reports_change
        (params kwargs : dict) (s s0 s1 : Sys H) (c : Container)
        (ch : bool) (reasons : list string) :
  Dict.pop "state" params = Some (PStr "running", kwargs) ->
  Container_init kwargs s = (Ok c, s0) ->
  files s !! prev_commands_file c = None ->
  run_module params s = (ExitJson ch reasons, s1) ->
  ch = true.
Proof.
  intros Hstate Hinit Hnew Hexit.
  destruct (run_module_exit _ _ _ _ _ Hexit)
    as (state & kwargs' & c' & s0' & st & Hstate' & Hinit' & Hrun & -> & _).
  rewrite Hstate in Hstate'. injection Hstate' as <- <-.
  rewrite Hinit in Hinit'. injection Hinit' as <- <-.
  apply (ensure_running_acts_on_drift {| self := c; sys := s0 |}); [|done].
  destruct (init_facts _ _ _ _ Hinit) as (_ & _ & _ & _ & Hstr & Hprev).
  destruct (init_commands _ _ _ _ Hinit) as (_ & _ & [rest Hcmd]).
  unfold run_command_drifted. simpl. rewrite Hprev, Hstr.
  unfold record_content. rewrite Hnew, Hcmd. done.
Qed.

(** A run command that holds a newline never comes back from the record as
    it went in: with [state = running] and the record that a run with these
    very arguments has written, the module acts again, and when it ends in
    [exit_json] it reports [changed = True]. *)
Theorem newline_makes_every_run_change
        (params kwargs : dict) (s s0 s1 : Sys H) (c : Container)
        (ch : bool) (reasons : list string) :
  Dict.pop "state" params = Some (PStr "running", kwargs) ->
  Container_init kwargs s = (Ok c, s0) ->
  files s !! prev_commands_file c = Some (record_of c) ->
  one_line (build_command_str c) ->
  ~ one_line (run_command_str c) ->
  run_module params s = (ExitJson ch reasons, s1) ->
  ch = true.
Proof.
  intros Hstate Hinit Hrecord Hbuild Hrun Hexit.
  destruct (run_module_exit _ _ _ _ _ Hexit)
    as (state & kwargs' & c' & s0' & st & Hstate' & Hinit' & Hdispatch & -> & _).
  rewrite Hstate in Hstate'. injection Hstate' as <- <-.
  rewrite Hinit in Hinit'. injection Hinit' as <- <-.
  apply (ensure_running_acts_on_drift {| self := c; sys := s0 |}); [|done].
  destruct (init_facts _ _ _ _ Hinit) as (_ & _ & _ & _ & _ & Hprev).
  unfold run_command_drifted. simpl.
  apply negb_true_iff, String.eqb_neq. intros Heq.
  rewrite Hprev in Heq.
  unfold record_content in Heq. rewrite Hrecord in Heq. simpl in Heq.
  pose proof (record_drifts_on_newline _ _ Hbuild Hrun) as Hdrift.
  unfold record_of in Heq.
  destruct (PyString.readline (build_command_str c ++ PyString.newline ++ run_command_str c))
    as [line1 unread].
  simpl in Heq.
  destruct (PyString.readline unread) as [line2 unread'].
  simpl in Heq. congruence.
Qed.

(** Once the constructor has returned, the end of the module rewrites the
    record with the commands of this invocation, whatever the state asked
    for and whether the reconciliation returned or raised. *)
Theorem record_is_rewritten_whatever_happens
        (params kwargs : dict) (state : pyval) (s s0 : Sys H) (c : Container) :
  Dict.pop "state" params = Some (state, kwargs) ->
  Container_init kwargs s = (Ok c, s0) ->
  files (snd (run_module params s)) = <[prev_commands_file c := record_of c]> (files s0).
Proof.
  intros Hstate Hinit.
  unfold run_module. rewrite Hstate.
  assert (negb (bool_decide (is_Some (Dict.get "image" kwargs))) = false) as ->.
  { apply negb_false_iff, bool_decide_eq_true_2.
    destruct (Dict.get "image" kwargs) eqn:Himage; [done|].
    destruct (init_facts _ _ _ _ Hinit) as (_ & _ & _ & Hname & _).
    rewrite init_without_image in Hinit; [discriminate | done | by left]. }
  rewrite andb_false_r, Hinit.
  destruct (dispatch state {| self := c; sys := s0 |}) as [r st] eqn:Hrun.
  pose proof (frames_dispatch state _ _ _ Hrun) as [Hfiles Hspec]. simpl in *.
  destruct Hspec as (_ & _ & _ & _ & Hf & _ & _ & Hbc & Hrc & Hbs & Hrs).
  unfold Container_del.
  by rewrite Hbc, Hrc, (del_always_writes _ _ _ _ Hinit), Hf, Hbs, Hrs, Hfiles.
Qed.

(** The reconciliation itself writes no file and keeps the commands, the
    image and the recorded commands of the container: only [changed] and the
    trail can differ afterwards. *)
Theorem reconciliation_keeps_the_specification
        (state : pyval) (st st' : State H) (r : result unit) :
  dispatch state st = (r, st') ->
  files (sys st') = files (sys st) /\ same_spec (self st) (self st').
Proof. apply frames_dispatch. Qed.

End Outcomes.

(** ** The image step and the exceptions of a reconciliation *)

Section ImageStep.

Context {H : Type} `{Host H}.

#[local] Arguments PyString.slice_to : simpl never.

Lemma newer_in_files_sys (t : Z) (root : string) (filenames : list string)
      (st st' : State H) (r : result bool) :
  newer_in_files t root filenames st = (r, st') -> sys st' = sys st.
Proof.
  revert st. induction filenames as [|filename rest IH]; simpl; intros st.
  - intros Heq. by inversion Heq.
  - unfold mbind at 1, M_bind at 1, get_host at 1.
    destruct (getmtime _ (host (sys st))) as [mtime|];
      [|intros Heq; by inversion Heq].
    destruct (t <? _); [intros Heq; by inversion Heq | apply IH].
Qed.

Lemma newer_in_walk_sys (t : Z) (walk : list (string * list string * list string))
      (st st' : State H) (r : result bool) :
  newer_in_walk t walk st = (r, st') -> sys st' = sys st.
Proof.
  revert st. induction walk as [|[[root subdirs] filenames] rest IH]; simpl; intros st.
  - intros Heq. by inversion Heq.
  - unfold mbind, M_bind.
    destruct (newer_in_files t root filenames st) as [[found|e] st1] eqn:Hfiles;
      apply newer_in_files_sys in Hfiles.
    + destruct found; [intros Heq; inversion Heq; by subst|].
      intros Hrest. apply IH in Hrest. congruence.
    + intros Heq. inversion Heq. by subst.
Qed.

(** The calls of [needs_rebuild]: none when the build command has changed
    (and then the answer is [True]), the query for the creation time
    otherwise. *)
Lemma needs_rebuild_calls (st st' : State H) (r : result bool) :
  needs_rebuild st = (r, st') ->
  (r = Ok true /\ calls (sys st') = calls (sys st))
  \/ calls (sys st')
     = (calls (sys st) ++ [(created_query (image (self st)), None)])%list.
Proof.
  unfold needs_rebuild, mbind, M_bind, get_self, try_except, mret, M_ret, modify_self.
  destruct (negb _).
  { intros Heq. inversion Heq. by left. }
  rewrite exec_unfold.
  destruct (exec_command _ None (host (sys st))) as [[output|output|] h]; simpl;
    [|intros Heq; inversion Heq; by right..].
  destruct (Datetime.strptime _) as [t|]; [|intros Heq; inversion Heq; by right].
  destruct (path (self st)) as [top|]; [|intros Heq; inversion Heq; by right].
  unfold get_host. simpl.
  intros Hwalk. apply newer_in_walk_sys in Hwalk. right. by rewrite Hwalk.
Qed.

(** The image step goes by the mode of the container.  A locally built
    image is asked for its creation time and built, in the directory of the
    Dockerfile, and never pulled; a pulled image is asked for its ID and
    pulled, and never built. *)
Theorem image_step_by_mode (st st' : State H) (r : result unit) :
  ensure_image_is_updated st = (r, st') ->
  exists made,
    calls (sys st') = (calls (sys st) ++ made)%list
    /\ if is_local_image (self st)
       then made = [(build_command (self st), path (self st))]
            \/ made = [(created_query (image (self st)), None)]
            \/ made = [(created_query (image (self st)), None);
                       (build_command (self st), path (self st))]
       else made = [(id_query (image (self st)), None)]
            \/ made = [(id_query (image (self st)), None);
                       (["docker"; "pull"; image (self st)], None)].
Proof.
  unfold ensure_image_is_updated.
  unfold mbind at 1, M_bind at 1, get_self at 1.
  destruct (is_local_image (self st)).
  - unfold mbind, M_bind.
    destruct (needs_rebuild st) as [[stale|e] st1] eqn:Hquery.
    + pose proof (frames_needs_rebuild _ _ _ Hquery) as [_ Hspec].
      destruct Hspec as (_ & _ & Hpath & _ & _ & _ & _ & Hbuild & _).
      apply needs_rebuild_calls in Hquery.
      destruct stale.
      * rewrite build_unfold, Hbuild, Hpath.
        destruct (exec_command _ _ (host (sys st1))) as [[?|?|] ?];
          intros Heq; inversion Heq; subst; simpl;
          (destruct Hquery as [[_ ->] | ->];
           [ eexists; split; [reflexivity | by left]
           | eexists; split; [by rewrite <- app_assoc | by right; right] ]).
      * intros Heq. inversion Heq; subst.
        destruct Hquery as [[? _] | ->]; [done|].
        eexists; split; [reflexivity | by right; left].
    + intros Heq. inversion Heq; subst.
      apply needs_rebuild_calls in Hquery as [[? _] | ->]; [done|].
      eexists; split; [reflexivity | by right; left].
  - unfold mbind, M_bind. rewrite needs_pull_unfold.
    destruct (exec_command (id_query _) None (host (sys st))) as [[output|output|] h].
    + destruct (String.eqb output EmptyString).
      * rewrite pull_unfold. simpl.
        destruct (exec_command _ None h) as [[?|?|] ?];
          intros Heq; inversion Heq; subst; simpl;
          (eexists; split; [by rewrite <- app_assoc | by right]).
      * intros Heq. inversion Heq; subst. simpl.
        eexists; split; [reflexivity | by left].
    + rewrite pull_unfold. simpl.
      destruct (exec_command _ None h) as [[?|?|] ?];
        intros Heq; inversion Heq; subst; simpl;
        (eexists; split; [by rewrite <- app_assoc | by right]).
    + intros Heq. inversion Heq; subst. simpl.
      eexists; split; [reflexivity | by left].
Qed.

(** *** Exceptions *)

(** A method that, on a container with a pulled image, raises nothing but
    the failure of a docker command, or the [OSError] of a docker client
    that the host could not start. *)
Definition mild {A : Type} (m : M (State H) A) : Prop :=
  forall st e st',
    is_local_image (self st) = false ->
    m st = (Raise e, st') ->
    (exists cmd output, e = CalledProcessError cmd output)
    \/ (e = OSError /\ exists argv cwd h, fst (exec_command argv cwd h) = CannotStart).

Lemma mild_bind {A B : Type} (m : M (State H) A) (f : A -> M (State H) B) :
  mild m -> frames m -> (forall a, mild (f a)) -> mild (m ≫= f).
Proof.
  intros Hm Hframe Hf st e st' Hremote. unfold mbind, M_bind.
  destruct (m st) as [[a|e0] st1] eqn:Hrun; intros Heq.
  - destruct (Hframe _ _ _ Hrun) as [_ (_ & _ & _ & Hmode & _)].
    apply (Hf a st1 e st'); [congruence | done].
  - inversion Heq; subst. by apply (Hm st e st').
Qed.

Lemma mild_total {A : Type} (m : M (State H) A) :
  (forall st, exists a st', m st = (Ok a, st')) -> mild m.
Proof.
  intros Hm st e st' _ Hrun. destruct (Hm st) as (a & st0 & Heq). congruence.
Qed.

Lemma mild_exec (argv : list string) (cwd : option string) : mild (exec argv cwd).
Proof.
  intros st e st' _. rewrite exec_unfold.
  destruct (exec_command argv cwd (host (sys st))) as [[output|output|] h] eqn:Hexec;
    intros Heq; inversion Heq; subst.
  - left. by eexists _, _.
  - right. split; [done|]. exists argv, cwd, (host (sys st)). by rewrite Hexec.
Qed.

Lemma mild_running : mild running.
Proof.
  intros st e st' _. rewrite running_unfold.
  destruct (exec_command _ None (host (sys st))) as [[output|output|] h] eqn:Hexec;
    intros Heq; inversion Heq; subst.
  right. split; [done|]. eexists _, _, _. by rewrite Hexec.
Qed.

Lemma mild_needs_pull : mild needs_pull.
Proof.
  intros st e st' _. rewrite needs_pull_unfold.
  destruct (exec_command _ None (host (sys st))) as [[output|output|] h] eqn:Hexec;
    intros Heq; inversion Heq; subst.
  right. split; [done|]. eexists _, _, _. by rewrite Hexec.
Qed.

Lemma mild_get_self : mild get_self.
Proof. apply mild_total. intros st. by eexists _, _. Qed.

Lemma mild_modify (f : Container -> Container) : mild (modify_self f).
Proof. apply mild_total. intros st. by eexists _, _. Qed.

Lemma mild_ret {A : Type} (a : A) : mild (mret a).
Proof. apply mild_total. intros st. by eexists _, _. Qed.

Create HintDb mild.
#[local] Hint Resolve mild_exec mild_running mild_needs_pull mild_get_self mild_modify
  mild_ret : mild.
#[local] Hint Resolve frames_running frames_needs_pull frames_run frames_start
  frames_stop frames_remove frames_pull frames_restart frames_ensure_image_is_updated
  frames_ret frames_get_self frames_add_reason frames_set_changed frames_exec : mild.

Lemma frames_branch {A : Type} (b : bool) (m1 m2 : M (State H) A) :
  frames m1 -> frames m2 -> frames (if b then m1 else m2).
Proof. by destruct b. Qed.

Ltac mild :=
  repeat first
    [ assumption | solve [auto with mild nocore]
    | apply mild_bind; [| solve [auto using frames_branch with mild nocore] | intros ?]
    | match goal with
      | |- mild (if ?b then _ else _) => destruct b
      | |- mild (match ?x with _ => _ end) => destruct x
      end ].

Lemma mild_run : mild run.
Proof. unfold run. mild. Qed.
Lemma mild_start : mild start.
Proof. unfold start. mild. Qed.
Lemma mild_stop : mild stop.
Proof. unfold stop. mild. Qed.
Lemma mild_remove : mild remove.
Proof. unfold remove. mild. Qed.
Lemma mild_pull : mild pull.
Proof. unfold pull. mild. Qed.
#[local] Hint Resolve mild_run mild_start mild_stop mild_remove mild_pull : mild.

Lemma mild_restart : mild restart.
Proof. unfold restart. mild. Qed.
#[local] Hint Resolve mild_restart : mild.

Lemma mild_ensure_image_is_updated : mild ensure_image_is_updated.
Proof.
  intros st e st' Hremote. unfold ensure_image_is_updated.
  unfold mbind at 1, M_bind at 1, get_self at 1. rewrite Hremote.
  assert (mild (missing ← needs_pull; if (missing : bool) then pull else mret tt))
    as Hpull by mild.
  by apply Hpull.
Qed.
#[local] Hint Resolve mild_ensure_image_is_updated : mild.



End ImageStep.

(** ** More runs on the executable host *)

Module Cases.

Import Toy Runs.

(** The arguments of a locally built container [app], with a build
    argument. *)
Definition app_kwargs : dict :=
  [("name", PStr "app"); ("image", PStr "app"); ("path", PStr "/srv/app");
   ("command", PStr "serve"); ("build_args", PDict [("pull", PStr "true")])].

(** The container that [__init__] makes of [app_kwargs] on the host
    [fresh], where nothing is on record. *)
Definition app_made : Container :=
  match fst (Container_init app_kwargs (boot fresh)) with
  | Ok c => c
  | Raise _ => app
  end.

Example init_app :
  Container_init app_kwargs (boot fresh)
  = (Ok app_made, snd (Container_init app_kwargs (boot fresh))).
Proof. vm_compute. reflexivity. Qed.

Lemma init_image_of_mode_witness :
  exists stem,
    Dict.get "image" app_kwargs = Some (PStr stem)
    /\ PyString.contains ":" stem = false
    /\ image app_made = stem ++ ":local".
Proof. exact (init_image_of_mode _ _ _ _ init_app). Defined.

Lemma run_command_names_the_container_witness :
  exists before after,
    run_command app_made = (before ++ ["--name"; "app"] ++ after)%list.
Proof.
  apply (run_command_names_the_container _ _ _ _ init_app). discriminate.
Defined.

Lemma build_args_reach_the_run_command_witness :
  exists before after,
    run_command app_made
    = (before ++ ["--build-args"; "{'pull': 'true', 'tag': 'app:local'}"] ++ after)%list.
Proof.
  exact (build_args_reach_the_run_command
           _ _ _ _ [("pull", PStr "true")] init_app eq_refl).
Defined.

Lemma build_command_tags_the_image_witness :
  exists before after,
    build_command app_made
    = ("docker" :: "build" :: before ++ ["--tag"; "app:local"] ++ after
         ++ ["--no-cache"; "."])%list.
Proof.
  apply (build_command_tags_the_image _ _ _ _ init_app). discriminate.
Defined.

Definition tagged_params : dict :=
  [("state", PStr "running"); ("name", PStr "app"); ("image", PStr "app:v1");
   ("path", PStr "/srv/app"); ("command", PNone); ("build_args", PNone)].

Lemma local_image_with_tag_is_refused_witness :
  run_module tagged_params (boot fresh)
  = (FailJson "Invalid argument: No tags are allowed when building a local image",
     boot fresh).
Proof.
  apply (local_image_with_tag_is_refused
           tagged_params (boot fresh) (PStr "running") (PStr "/srv/app") "app:v1").
  - reflexivity.
  - exists (PStr "app"). reflexivity.
  - reflexivity.
  - reflexivity.
  - reflexivity.
  - reflexivity.
Defined.

Lemma image_check_is_on_the_key_witness :
  run_module [("state", PStr "running"); ("name", PStr "web")] (boot fresh)
  = (FailJson "Invalid argument: No image name provided", boot fresh)
  /\ run_module [("state", PStr "running"); ("name", PStr "web"); ("image", PNone)]
                (boot fresh)
     = (Uncaught TypeError, boot fresh).
Proof.
  split.
  - apply (image_check_is_on_the_key
             [("state", PStr "running"); ("name", PStr "web")] (boot fresh)
             (PStr "running") eq_refl); reflexivity.
  - apply (image_check_is_on_the_key
             [("state", PStr "running"); ("name", PStr "web"); ("image", PNone)]
             (boot fresh) (PStr "running") eq_refl);
      [reflexivity | exists (PStr "web"); reflexivity].
Defined.

Lemma module_reports_change_iff_acted_witness :
  exists made,
    calls (snd (run_module (web_params "running") (boot fresh))) = ([] ++ made)%list
    /\ (true = true <-> existsb is_action made = true).
Proof.
  apply (module_reports_change_iff_acted
           (web_params "running") (boot fresh)
           (snd (run_module (web_params "running") (boot fresh)))
           true ["Arguments changed for run command"; "Executed 'docker run'"]).
  vm_compute. reflexivity.
Defined.

Lemma changed_is_never_reset_witness :
  changed
    (self (snd (dispatch (PStr "stopped")
                         {| self := set_changed true (web EmptyString EmptyString);
                            sys := boot fresh |})))
  = true.
Proof.
  eapply (changed_is_never_reset (PStr "stopped")
            {| self := set_changed true (web EmptyString EmptyString);
               sys := boot fresh |}).
  - split; by eexists.
  - reflexivity.
  - vm_compute. reflexivity.
Defined.

Lemma ensure_stopped_only_stops_witness :
  calls (sys (snd (ensure_stopped settled)))
  = [(running_query "web", None); (["docker"; "stop"; "web"], None)]
  /\ (fst (ensure_stopped settled) = Ok tt ->
      changed (self (snd (ensure_stopped settled))) = true).
Proof.
  exact (ensure_stopped_only_stops
           settled (snd (ensure_stopped settled)) (fst (ensure_stopped settled))
           (Exit0 (PyString.dquote ++ "true" ++ PyString.dquote ++ PyString.newline))
           (with_web true) eq_refl eq_refl).
Defined.

Lemma ensure_restarted_always_acts_witness :
  calls (sys (snd (ensure_restarted settled)))
  = [(running_query "web", None); (["docker"; "restart"; "web"], None)]
  /\ changed (self (snd (ensure_restarted settled))) = true.
Proof.
  exact (ensure_restarted_always_acts
           settled (snd (ensure_restarted settled))
           (Exit0 (PyString.dquote ++ "true" ++ PyString.dquote ++ PyString.newline))
           (with_web true) eq_refl eq_refl).
Defined.

Lemma drift_forces_change_witness :
  changed (self (snd (ensure_running drifted))) = true.
Proof.
  apply (drift_forces_change drifted).
  - reflexivity.
  - vm_compute. reflexivity.
Defined.

Lemma unchanged_run_has_empty_trail_witness :
  let first := run_module (web_params "running") (boot fresh) in
  fst (run_module (web_params "running") (snd first)) = ExitJson false []
  /\ ([] : list string) = [].
Proof.
  split; [vm_compute; reflexivity|].
  apply (unchanged_run_has_empty_trail
           (web_params "running")
           (snd (run_module (web_params "running") (boot fresh)))
           (snd (run_module (web_params "running")
                            (snd (run_module (web_params "running") (boot fresh)))))).
  vm_compute. reflexivity.
Defined.

Lemma first_run_reports_change_witness :
  files (boot fresh) !! record_path = None
  /\ fst (run_module (web_params "running") (boot fresh))
     = ExitJson true ["Arguments changed for run command"; "Executed 'docker run'"].
Proof.
  split; [reflexivity|].
  assert (true = true) as Hchanged.
  { apply (first_run_reports_change
             (web_params "running") web_kwargs (boot fresh)
             (with_record EmptyString (boot fresh))
             (snd (run_module (web_params "running") (boot fresh)))
             (web EmptyString EmptyString)
             true ["Arguments changed for run command"; "Executed 'docker run'"]).
    - reflexivity.
    - vm_compute. reflexivity.
    - reflexivity.
    - vm_compute. reflexivity. }
  vm_compute. reflexivity.
Defined.

Lemma reconciliation_keeps_the_specification_witness :
  files (sys (snd (ensure_running drifted))) = files (sys drifted)
  /\ same_spec (self drifted) (self (snd (ensure_running drifted))).
Proof.
  apply (reconciliation_keeps_the_specification
           (PStr "running") drifted (snd (ensure_running drifted))
           (fst (ensure_running drifted))).
  vm_compute. reflexivity.
Defined.

Lemma record_round_trip_witness :
  let '(line1, unread) :=
    PyString.readline ("docker build --tag nginx --no-cache ." ++ PyString.newline
                         ++ "docker run --name web -d nginx") in
  let '(line2, _) := PyString.readline unread in
  PyString.strip_newline line1 = "docker build --tag nginx --no-cache ."
  /\ PyString.strip_newline line2 = "docker run --name web -d nginx".
Proof.
  apply (record_round_trip "docker build --tag nginx --no-cache ."
                           "docker run --name web -d nginx"); reflexivity.
Defined.

(** The machine that a first run with [motd_params] leaves, and the
    container that [__init__] makes there of the same arguments. *)
Definition after_motd : Sys daemon :=
  forget_calls (snd (run_module motd_params (boot fresh))).

Definition motd_made : Container :=
  match fst (Container_init (Dict.remove "state" motd_params) after_motd) with
  | Ok c => c
  | Raise _ => web EmptyString EmptyString
  end.

Lemma newline_makes_every_run_change_witness :
  files after_motd !! prev_commands_file motd_made = Some (record_of motd_made)
  /\ fst (run_module motd_params after_motd)
     = ExitJson true ["Arguments changed for run command"; "Executed 'docker stop'";
                      "Executed 'docker rm'"; "Executed 'docker run'"].
Proof.
  split; [vm_compute; reflexivity|].
  assert (true = true) as Hchanged.
  { apply (newline_makes_every_run_change
             motd_params (Dict.remove "state" motd_params) after_motd
             (snd (Container_init (Dict.remove "state" motd_params) after_motd))
             (snd (run_module motd_params after_motd))
             motd_made true
             ["Arguments changed for run command"; "Executed 'docker stop'";
              "Executed 'docker rm'"; "Executed 'docker run'"]).
    - reflexivity.
    - vm_compute. reflexivity.
    - vm_compute. reflexivity.
    - vm_compute. reflexivity.
    - vm_compute. discriminate.
    - vm_compute. reflexivity. }
  vm_compute. reflexivity.
Defined.

(** A host whose daemon answers queries and refuses every action. *)
Record down : Type := { under : daemon }.

Definition docker_down (argv : list string) (cwd : option string) (d : down)
  : completed * down :=
  match argv with
  | ["docker"; "inspect"; "--format"; format; x] => (inspect format x (under d), d)
  | _ => (NonZero "Cannot connect to the Docker daemon", d)
  end.

#[global] Instance down_host : Host down := {|
  exec_command := docker_down;
  os_walk := fun top d => default [] (walks (under d) !! top);
  getmtime := fun p d => mtimes (under d) !! p;
  fromtimestamp := fun t d => t + utc_offset (under d)
|}.

Definition boot_down : Sys down :=
  {| host := {| under := fresh |}; files := ∅; calls := [] |}.

Lemma record_is_rewritten_whatever_happens_witness :
  fst (run_module (web_params "running") boot_down)
  = FailJson ("Docker command failed: docker run --name web -d nginx"
                ++ PyString.newline ++ PyString.newline
                ++ "Cannot connect to the Docker daemon")
  /\ files (snd (run_module (web_params "running") boot_down))
     = {[ record_path := record_of (web EmptyString EmptyString) ]}.
Proof.
  split; [vm_compute; reflexivity|].
  eapply eq_trans.
  - apply (record_is_rewritten_whatever_happens
             (web_params "running") web_kwargs (PStr "running") boot_down
             {| host := {| under := fresh |};
                files := {[ record_path := EmptyString ]};
                calls := [] |}
             (web EmptyString EmptyString)).
    + reflexivity.
    + vm_compute. reflexivity.
  - vm_compute. reflexivity.
Defined.

Lemma image_step_by_mode_witness :
  let st := {| self := app; sys := boot built_at_0940 |} in
  exists made,
    calls (sys (snd (ensure_image_is_updated st))) = ([] ++ made)%list
    /\ (made = [(build_command app, Some "/srv/app")]
        \/ made = [(created_query "app:local", None)]
        \/ made = [(created_query "app:local", None);
                   (build_command app, Some "/srv/app")]).
Proof.
  exact (image_step_by_mode
           {| self := app; sys := boot built_at_0940 |}
           (snd (ensure_image_is_updated {| self := app; sys := boot built_at_0940 |}))
           (fst (ensure_image_is_updated {| self := app; sys := boot built_at_0940 |}))
           eq_refl).
Defined.

(** Arguments with a build argument named [command]. *)
Definition clashing_params : dict :=
  [("state", PStr "running"); ("name", PStr "app"); ("image", PStr "app");
   ("path", PStr "/srv/app"); ("command", PNone);
   ("build_args", PDict [("command", PStr "make")])].

Lemma build_argument_named_command_is_fatal_witness :
  fst (run_module clashing_params (boot fresh)) = Uncaught TypeError
  /\ calls (snd (run_module clashing_params (boot fresh))) = calls (boot fresh).
Proof.
  apply (build_argument_named_command_is_fatal
           clashing_params (boot fresh) (PStr "running") "app" "app"
           [("command", PStr "make")]).
  - reflexivity.
  - reflexivity.
  - reflexivity.
  - intros msg. vm_compute. discriminate.
  - reflexivity.
  - by eexists.
Defined.

(** A host with no docker client to start: the first query of the module
    raises [OSError], and the module ends with it. *)
Example without_docker_the_module_crashes :
  run_module (web_params "running") (boot (without_client fresh))
  = (Uncaught OSError,
     {| host := without_client fresh;
        files := {[ record_path := record_of (web EmptyString EmptyString) ]};
        calls := [(id_query "nginx", None)] |}).
Proof. vm_compute. reflexivity. Qed.


End Cases.
